(** * Device storage survey and folder-size ranking (adb_utils.py)

    A shallow embedding of [run_adb_command], [get_storage_details] and
    [get_top_large_folders] from [src/adb_utils.py], together with the
    Python string primitives they rely on, and the properties of the
    storage survey stated over that embedding. The embedding also covers
    [get_device_info], [check_adb_status], the status loop and the storage
    section of [list_connected_devices_and_details],
    [kill_and_restart_adb_server] and the menu loop of [src/main.py].

    Conventions of the model.
    - A Python [str] is a [string] of 8-bit characters; the character
      classes ([isspace], [isalpha], digits) are the ASCII ones.
    - A Python [int] is a [Z]; [int] reads a string of 4300 digits at
      most, the limit the interpreter starts with.
    - A Python [float] is a binary64 value: a finite one is the exact
      rational it stands for, every operation of the source ([/], [*],
      [float]) rounds its exact result to the nearest binary64 value,
      ties to even, and leaves the range as the interpreter does (an
      [OverflowError] for the division of two integers, an infinity
      otherwise).
    - Console output ([print]) is not part of the state.
    - The device is a state of an arbitrary type [World]; every call of
      [subprocess.run] consumes a state and produces the next one. *)

From Stdlib Require Import List String Ascii ZArith QArith Qabs Bool Lia.
From Stdlib Require Import Permutation Sorted DecimalString.
Import ListNotations.

Local Open Scope string_scope.
Local Open Scope Z_scope.

(** ** Python string primitives *)

Module PyStr.

Definition chars (s : string) : list ascii := list_ascii_of_string s.
Definition str (l : list ascii) : string := string_of_list_ascii l.

Definition code (c : ascii) : nat := nat_of_ascii c.

(** [str.isspace] on one ASCII character: TAB, LF, VT, FF, CR, the four
    separators FS GS RS US, and the blank. *)
Definition isspace (c : ascii) : bool :=
  let n := code c in
  ((9 <=? n) && (n <=? 13) || (28 <=? n) && (n <=? 32))%nat.

(** [str.isalpha] on one ASCII character. *)
Definition isalpha (c : ascii) : bool :=
  let n := code c in
  ((65 <=? n) && (n <=? 90) || (97 <=? n) && (n <=? 122))%nat.

(** [str.upper] on one ASCII character. *)
Definition upper (c : ascii) : ascii :=
  let n := code c in
  if ((97 <=? n) && (n <=? 122))%nat then ascii_of_nat (n - 32) else c.

Fixpoint lstrip_chars (l : list ascii) : list ascii :=
  match l with
  | c :: r => if isspace c then lstrip_chars r else l
  | [] => []
  end.

Definition rstrip_chars (l : list ascii) : list ascii :=
  rev (lstrip_chars (rev l)).

(** [s.strip()] *)
Definition strip (s : string) : string :=
  str (rstrip_chars (lstrip_chars (chars s))).

(** [s.split()]: the maximal runs of non-blank characters. [cur] holds the
    run being read, last character first. *)
Fixpoint tokens (cur : list ascii) (l : list ascii) : list string :=
  match l with
  | [] => match cur with [] => [] | _ => [str (rev cur)] end
  | c :: r =>
      if isspace c
      then match cur with
           | [] => tokens [] r
           | _ => str (rev cur) :: tokens [] r
           end
      else tokens (c :: cur) r
  end.

Definition split (s : string) : list string := tokens [] (chars s).

(** [s.split(sep)] for a one-character separator: empty fields are kept
    and the result is never empty. *)
Fixpoint fields (sep : ascii) (cur : list ascii) (l : list ascii)
  : list string :=
  match l with
  | [] => [str (rev cur)]
  | c :: r =>
      if Ascii.eqb c sep
      then str (rev cur) :: fields sep [] r
      else fields sep (c :: cur) r
  end.

Definition split_on (sep : ascii) (s : string) : list string :=
  fields sep [] (chars s).

(** Line boundaries of [str.splitlines]: LF, VT, FF, CR, FS, GS, RS
    (and CR LF as one boundary). *)
Definition islinebreak (c : ascii) : bool :=
  let n := code c in
  ((10 <=? n) && (n <=? 13) || (28 <=? n) && (n <=? 30))%nat.

Fixpoint lines_of (cur : list ascii) (l : list ascii) : list string :=
  match l with
  | [] => match cur with [] => [] | _ => [str (rev cur)] end
  | c :: r =>
      if islinebreak c
      then match r with
           | c' :: r' =>
               if ((code c =? 13) && (code c' =? 10))%nat
               then str (rev cur) :: lines_of [] r'
               else str (rev cur) :: lines_of [] r
           | [] => str (rev cur) :: lines_of [] r
           end
      else lines_of (c :: cur) r
  end.

(** [s.splitlines()] *)
Definition splitlines (s : string) : list string := lines_of [] (chars s).

(** [s.replace(a, b)] for one-character [a] and [b]. *)
Definition replace (a b : ascii) (s : string) : string :=
  str (map (fun c => if Ascii.eqb c a then b else c) (chars s)).

(** [s[-1]], when [s] is not empty. *)
Definition last_char (s : string) : option ascii :=
  match rev (chars s) with c :: _ => Some c | [] => None end.

(** [s[:-1]] *)
Definition drop_last (s : string) : string :=
  str (removelast (chars s)).

(** *** Numeric literals *)

Definition digit_val (c : ascii) : option Z :=
  let n := code c in
  if ((48 <=? n) && (n <=? 57))%nat then Some (Z.of_nat (n - 48)) else None.

Definition is_underscore (c : ascii) : bool := Ascii.eqb c "_"%char.

(** Continues a digit part after a digit has been read: more digits,
    each optionally preceded by a single underscore. Returns the value,
    the number of digits and the unread rest. *)
Fixpoint scan_more (acc : Z) (n : nat) (l : list ascii)
  : Z * nat * list ascii :=
  match l with
  | [] => (acc, n, l)
  | c :: r =>
      match digit_val c with
      | Some d => scan_more (10 * acc + d) (S n) r
      | None =>
          if is_underscore c
          then match r with
               | c' :: r' =>
                   match digit_val c' with
                   | Some d => scan_more (10 * acc + d) (S n) r'
                   | None => (acc, n, l)
                   end
               | [] => (acc, n, l)
               end
          else (acc, n, l)
      end
  end.

(** A digit part: a digit followed by [scan_more]. *)
Definition scan_digits (l : list ascii) : option (Z * nat * list ascii) :=
  match l with
  | c :: r =>
      match digit_val c with
      | Some d => Some (scan_more d 1 r)
      | None => None
      end
  | [] => None
  end.

(** An optional sign; returns [true] for a minus sign. *)
Definition scan_sign (l : list ascii) : bool * list ascii :=
  match l with
  | c :: r =>
      if Ascii.eqb c "-"%char then (true, r)
      else if Ascii.eqb c "+"%char then (false, r)
      else (false, l)
  | [] => (false, l)
  end.

(** [sys.get_int_max_str_digits()], as the interpreter starts. *)
Definition int_max_str_digits : nat := 4300.

(** [int(s)] in base ten: surrounding blanks are dropped, then an optional
    sign and one digit part, of [int_max_str_digits] digits at most,
    leading zeros counted. [None] stands for [ValueError]. *)
Definition py_int (s : string) : option Z :=
  let (neg, l) := scan_sign (chars (strip s)) in
  match scan_digits l with
  | Some (v, n, []) =>
      if (n <=? int_max_str_digits)%nat
      then Some (if neg then - v else v)
      else None
  | _ => None
  end.

(** The exponent part of a float literal, when there is one. *)
Definition scan_exponent (l : list ascii) : option (Z * list ascii) :=
  match l with
  | c :: r =>
      if Ascii.eqb (upper c) "E"%char
      then let (neg, r') := scan_sign r in
           match scan_digits r' with
           | Some (e, _, rest) => Some (if neg then - e else e, rest)
           | None => None
           end
      else Some (0, l)
  | [] => Some (0, l)
  end.

(** The mantissa of a float literal: [digits], [digits.], [digits.digits]
    or [.digits]. *)
Definition scan_mantissa (l : list ascii) : option (Q * list ascii) :=
  match scan_digits l with
  | Some (i, _, r) =>
      match r with
      | c :: r1 =>
          if Ascii.eqb c "."%char
          then match scan_digits r1 with
               | Some (f, n, r2) =>
                   Some ((inject_Z i + inject_Z f / inject_Z (10 ^ Z.of_nat n))%Q, r2)
               | None => Some (inject_Z i, r1)
               end
          else Some (inject_Z i, r)
      | [] => Some (inject_Z i, r)
      end
  | None =>
      match l with
      | c :: r1 =>
          if Ascii.eqb c "."%char
          then match scan_digits r1 with
               | Some (f, n, r2) =>
                   Some ((inject_Z f / inject_Z (10 ^ Z.of_nat n))%Q, r2)
               | None => None
               end
          else None
      | [] => None
      end
  end.

Definition scale10 (q : Q) (e : Z) : Q :=
  (if 0 <=? e then q * inject_Z (10 ^ e) else q / inject_Z (10 ^ (- e)))%Q.

(** The exact value of an unsigned decimal float literal: a mantissa and
    an optional exponent, with nothing after them. *)
Definition scan_number (l : list ascii) : option Q :=
  match scan_mantissa l with
  | Some (m, r) =>
      match scan_exponent r with
      | Some (e, []) => Some (scale10 m e)
      | _ => None
      end
  | None => None
  end.

(** *** Substrings *)

(** [s.startswith(p)] *)
Fixpoint startswith (s p : string) : bool :=
  match p, s with
  | EmptyString, _ => true
  | String _ _, EmptyString => false
  | String a p', String b s' => Ascii.eqb a b && startswith s' p'
  end.

(** [s.endswith(p)] *)
Definition endswith (s p : string) : bool :=
  startswith (str (rev (chars s))) (str (rev (chars p))).

(** [p in s] *)
Fixpoint contains (p s : string) : bool :=
  startswith s p
  || match s with
     | EmptyString => false
     | String _ r => contains p r
     end.

(** [s[n:]] *)
Fixpoint drop (n : nat) (s : string) : string :=
  match n, s with
  | O, _ => s
  | S m, String _ r => drop m r
  | S _, EmptyString => EmptyString
  end.

(** The text before and the text after the first occurrence of [sep] in
    [s], for a [sep] that is not empty. *)
Fixpoint find_sep (sep s : string) : option (string * string) :=
  if startswith s sep then Some (EmptyString, drop (String.length sep) s)
  else match s with
       | EmptyString => None
       | String c r =>
           match find_sep sep r with
           | Some (before, after) => Some (String c before, after)
           | None => None
           end
       end.

(** [s.split(sep, 1)] for a [sep] that is not empty. *)
Definition split_once (sep s : string) : list string :=
  match find_sep sep s with
  | Some (before, after) => [before; after]
  | None => [s]
  end.

(** [s[1:]] *)
Definition drop_first (s : string) : string := drop 1 s.

(** [str.lower] on one ASCII character. *)
Definition lower_char (c : ascii) : ascii :=
  let n := code c in
  if ((65 <=? n) && (n <=? 90))%nat then ascii_of_nat (n + 32) else c.

(** [s.lower()] *)
Definition lower (s : string) : string := str (map lower_char (chars s)).

End PyStr.

(** ** Formatting

    The format specification [:.2f] on a finite value: two digits after
    the point, the last one rounded half to even on the exact value. *)

Module PyFormat.

(** Nearest integer of a non-negative rational, ties to even. *)
Definition round_half_even (q : Q) : Z :=
  let n := Qnum q in
  let d := Z.pos (Qden q) in
  let fl := n / d in
  match (2 * (n mod d)) ?= d with
  | Lt => fl
  | Gt => fl + 1
  | Eq => if Z.even fl then fl else fl + 1
  end.

Definition decimal (z : Z) : string :=
  NilZero.string_of_uint (N.to_uint (Z.to_N z)).

Definition digit (z : Z) : string :=
  String (ascii_of_nat (48 + Z.to_nat z)) EmptyString.

(** [f"{q:.2f}"] *)
Definition fmt2f (q : Q) : string :=
  let c := round_half_even (Qabs q * 100) in
  (if Qnum q <? 0 then "-" else "")
    ++ decimal (c / 100) ++ "." ++ digit ((c / 10) mod 10) ++ digit (c mod 10).

End PyFormat.

(** ** Floats

    The binary64 values of the interpreter. [Fin q] is the finite value
    [q], held in lowest terms, a zero of [Fin] being the positive zero;
    [NegZero] is the negative zero, which compares equal to it and prints
    with a minus sign. *)

Module Float64.

Inductive t : Type :=
| Fin (q : Q)
| NegZero
| Inf (negative : bool)
| NaN.

(** [2 ** k] for an integer [k] of either sign. *)
Definition pow2 (k : Z) : Q :=
  if 0 <=? k then inject_Z (2 ^ k) else (/ inject_Z (2 ^ (- k)))%Q.

(** The least magnitude that rounds out of the range: the largest finite
    value plus half a unit in its last place. *)
Definition threshold : Z := 2 ^ 1024 - 2 ^ 970.

Definition overflows (q : Q) : bool :=
  Qle_bool (inject_Z threshold) (Qabs q).

(** [floor (log2 a)] for a positive [a]. *)
Definition exponent (a : Q) : Z :=
  let e0 := Z.log2 (Qnum a) - Z.log2 (Z.pos (Qden a)) in
  if Qle_bool (pow2 e0) a then e0 else e0 - 1.

(** The exponent of the unit in the last place of a positive [a]: 53
    significant bits, and no unit below [2 ** -1074]. *)
Definition ulp (a : Q) : Z := Z.max (exponent a - 52) (-1074).

(** The multiple of the unit in the last place nearest to [q], ties to
    the even multiple. *)
Definition round (q : Q) : Q :=
  let a := Qabs q in
  if Qnum a =? 0 then 0%Q
  else
    let p := ulp a in
    let m := PyFormat.round_half_even (a / pow2 p) in
    Qred ((if Qnum q <? 0 then - inject_Z m else inject_Z m) * pow2 p).

(** The float nearest to the exact result of sign [negative] and
    magnitude [magnitude]: an infinity when the result leaves the range,
    a zero of that sign when it rounds to zero. *)
Definition make (negative : bool) (magnitude : Q) : t :=
  if overflows magnitude then Inf negative
  else
    let r := round (Qabs magnitude) in
    if Qnum r =? 0 then (if negative then NegZero else Fin 0)
    else Fin (if negative then Qopp r else r).

Definition of_Q (q : Q) : t := make (Qnum q <? 0) q.

(** The float of an integer constant of the source. *)
Definition of_Z (z : Z) : t := of_Q (inject_Z z).

(** [a / b] on two integers with [b] not zero, the quotient being rounded
    once. *)
Definition div_Z (a b : Z) : t :=
  make (xorb (a <? 0) (b <? 0)) (inject_Z a / inject_Z b).

Definition negative (x : t) : bool :=
  match x with
  | Fin q => Qnum q <? 0
  | NegZero => true
  | Inf s => s
  | NaN => false
  end.

(** The number a finite float stands for. *)
Definition value (x : t) : Q :=
  match x with
  | Fin q => q
  | _ => 0
  end.

Definition is_zero (x : t) : bool :=
  match x with
  | Fin q => Qnum q =? 0
  | NegZero => true
  | _ => false
  end.

(** [x * y] *)
Definition mul (x y : t) : t :=
  match x, y with
  | NaN, _ => NaN
  | _, NaN => NaN
  | Inf s, Inf s' => Inf (xorb s s')
  | Inf s, _ => if is_zero y then NaN else Inf (xorb s (negative y))
  | _, Inf s => if is_zero x then NaN else Inf (xorb s (negative x))
  | _, _ => make (xorb (negative x) (negative y)) (value x * value y)
  end.

(** [x < y]: false whenever one side is a nan. *)
Definition ltb (x y : t) : bool :=
  match x, y with
  | NaN, _ => false
  | _, NaN => false
  | Inf s, Inf s' => s && negb s'
  | Inf s, _ => s
  | _, Inf s => negb s
  | _, _ => negb (Qle_bool (value y) (value x))
  end.

(** [x <= y]: false whenever one side is a nan. *)
Definition leb (x y : t) : bool :=
  match x, y with
  | NaN, _ => false
  | _, NaN => false
  | _, _ => negb (ltb y x)
  end.

(** [x == y] *)
Definition eqb (x y : t) : bool := leb x y && leb y x.

Definition is_nan (x : t) : bool :=
  match x with NaN => true | _ => false end.

(** [f"{x:.2f}"] *)
Definition format_2f (x : t) : string :=
  match x with
  | Fin q => PyFormat.fmt2f q
  | NegZero => "-0.00"
  | Inf false => "inf"
  | Inf true => "-inf"
  | NaN => "nan"
  end.

(** [float(s)]: surrounding blanks are dropped, then an optional sign and
    either one of the words [inf], [infinity] and [nan] in any letter
    case, or a decimal literal, whose value is rounded. [None] stands for
    [ValueError]. *)
Definition py_float (s : string) : option t :=
  let (neg, l) := PyStr.scan_sign (PyStr.chars (PyStr.strip s)) in
  let word := PyStr.str (map PyStr.lower_char l) in
  if (word =? "inf")%string || (word =? "infinity")%string then Some (Inf neg)
  else if (word =? "nan")%string then Some NaN
  else
    match PyStr.scan_number l with
    | Some q => Some (make neg q)
    | None => None
    end.

End Float64.

(** ** The command runner *)

(** What [subprocess.run(..., check=True)] does: it returns a completed
    process with its captured output, or raises. The exceptions are the
    instances of [Exception], by the [except] clause that first accepts
    them; [OtherException] carries [str(e)]. *)
Inductive run_outcome : Type :=
| Completed (stdout stderr : string)
| CalledProcessError (stdout stderr : string)
| FileNotFoundError
| OtherException (msg : string).

(** The triple [(success_status, stdout, stderr)]. *)
Definition adb_result : Type := bool * string * string.

Definition adb_not_found : string :=
  "Error: 'adb' command not found. Please ensure ADB is installed and added to your system's PATH.".

Definition run_adb_command_result (o : run_outcome) : adb_result :=
  match o with
  | Completed out err => (true, out, err)
  | CalledProcessError out err => (false, out, err)
  | FileNotFoundError => (false, "", adb_not_found)
  | OtherException msg => (false, "", "An unexpected error occurred: " ++ msg)
  end.

(** With [shell=True] the command text is handed to the shell of the
    host, and the outcome of [subprocess.run] follows from how the shell
    was started and how it ended: a shell that ends with status 0 is a
    completed process, one that ends with another status raises
    [CalledProcessError] (by [check=True]), and [FileNotFoundError] is
    raised when the shell itself cannot be started. *)
Inductive shell_run : Type :=
| ShellExit (returncode : Z) (stdout stderr : string)
| ShellNotFound
| ShellFailure (msg : string).

Definition outcome_of_shell (r : shell_run) : run_outcome :=
  match r with
  | ShellExit returncode out err =>
      if returncode =? 0 then Completed out err else CalledProcessError out err
  | ShellNotFound => FileNotFoundError
  | ShellFailure msg => OtherException msg
  end.

(** What a POSIX shell does with a command line whose program is not
    installed: it names the program on its error stream and ends with
    status 127. *)
Definition shell_without (program : string) : shell_run :=
  ShellExit 127 ""
    ("/bin/sh: 1: " ++ program ++ ": not found" ++ String (ascii_of_nat 10) EmptyString).

(** ** Storage details *)

Record Details : Type := mkDetails {
  name : string;
  path : string;
  total_gb : string;
  used_gb : string;
  available_gb : string;
  percentage_used : string
}.

Definition set_total_gb (v : string) (d : Details) : Details :=
  mkDetails (name d) (path d) v (used_gb d) (available_gb d) (percentage_used d).
Definition set_used_gb (v : string) (d : Details) : Details :=
  mkDetails (name d) (path d) (total_gb d) v (available_gb d) (percentage_used d).
Definition set_available_gb (v : string) (d : Details) : Details :=
  mkDetails (name d) (path d) (total_gb d) (used_gb d) v (percentage_used d).
Definition set_percentage_used (v : string) (d : Details) : Details :=
  mkDetails (name d) (path d) (total_gb d) (used_gb d) (available_gb d) v.

(** The dictionary a candidate starts with. *)
Definition new_details (name path : string) : Details :=
  mkDetails name path "N/A" "N/A" "N/A" "N/A".

(** The exceptions the body of the [try] block can raise. *)
Inductive exn : Type :=
| ValueError
| IndexError
| ZeroDivisionError
| OverflowError.

(** Statements of the [try] block: they read and update the dictionary
    [details] and either finish or raise. An update made before a raise
    stays in the dictionary. *)
Module Try.

Definition t (A : Type) : Type := Details -> Details * (exn + A).

Definition ret {A} (a : A) : t A := fun d => (d, inr a).
Definition raise {A} (e : exn) : t A := fun d => (d, inl e).
Definition bind {A B} (c : t A) (k : A -> t B) : t B :=
  fun d =>
    match c d with
    | (d', inr a) => k a d'
    | (d', inl e) => (d', inl e)
    end.
Definition update (f : Details -> Details) : t unit :=
  fun d => (f d, inr tt).

(** [l[i]] for [0 <= i] *)
Definition item (l : list string) (i : nat) : t string :=
  match nth_error l i with
  | Some s => ret s
  | None => raise IndexError
  end.

(** [int(s)] *)
Definition int (s : string) : t Z :=
  match PyStr.py_int s with
  | Some z => ret z
  | None => raise ValueError
  end.

(** [a / b] on two integers: the quotient is rounded once; a quotient
    that leaves the range raises [OverflowError]. *)
Definition truediv (a b : Z) : t Float64.t :=
  if b =? 0 then raise ZeroDivisionError
  else if Float64.threshold * Z.abs b <=? Z.abs a then raise OverflowError
  else ret (Float64.div_Z a b).

End Try.

Declare Scope try_scope.
Delimit Scope try_scope with try.
Notation "x <- c ;; k" := (Try.bind c (fun x => k))
  (at level 61, c at next level, right associativity) : try_scope.
Notation "c ;;; k" := (Try.bind c (fun _ => k))
  (at level 61, right associativity) : try_scope.

(** [path == "/storage/emulated/0" or path == "/storage/emulated" or
    path == "/sdcard"]; the same test is applied to the mount point. *)
Definition is_internal (p : string) : bool :=
  (p =? "/storage/emulated/0")%string
  || (p =? "/storage/emulated")%string
  || (p =? "/sdcard")%string.

(** The condition of the [if] that guards the [try] block. *)
Definition mount_matches (path mount_point : string) : bool :=
  (mount_point =? path)%string || (is_internal path && is_internal mount_point).

(** The body of the [try] block, lines 139 to 150. *)
Definition fill_details (parts : list string) : Try.t unit :=
  (p1 <- Try.item parts 1 ;; total_kblocks <- Try.int p1 ;;
   p2 <- Try.item parts 2 ;; used_kblocks <- Try.int p2 ;;
   p3 <- Try.item parts 3 ;; available_kblocks <- Try.int p3 ;;
   total <- Try.truediv total_kblocks (1024 ^ 2) ;;
   used <- Try.truediv used_kblocks (1024 ^ 2) ;;
   available <- Try.truediv available_kblocks (1024 ^ 2) ;;
   Try.update (set_total_gb (Float64.format_2f total ++ " GB")) ;;;
   Try.update (set_used_gb (Float64.format_2f used ++ " GB")) ;;;
   Try.update (set_available_gb (Float64.format_2f available ++ " GB")) ;;;
   percentage <- (if total_kblocks >? 0
                  then r <- Try.truediv used_kblocks total_kblocks ;;
                       Try.ret (Float64.mul r (Float64.of_Z 100))
                  else Try.ret (Float64.of_Z 0)) ;;
   Try.update (set_percentage_used (Float64.format_2f percentage ++ "%")))%try.

(** The loop over [df_lines] for one candidate. The result is the
    dictionary and either [found_df_data] or an exception that no
    [except] clause of the loop accepts. *)
Fixpoint scan_df_lines (path : string) (df_lines : list string) (details : Details)
  : Details * (exn + bool) :=
  match df_lines with
  | [] => (details, inr false)
  | line :: rest =>
      let parts := PyStr.split line in
      if (6 <=? List.length parts)%nat
      then
        let mount_point := last parts "" in
        if mount_matches path mount_point
        then
          match fill_details parts details with
          | (details', inr _) => (details', inr true)
          | (details', inl ValueError) => scan_df_lines path rest details'
          | (details', inl IndexError) => scan_df_lines path rest details'
          | (details', inl e) => (details', inl e)
          end
        else scan_df_lines path rest details
      else scan_df_lines path rest details
  end.

(** The loop over the candidates: one dictionary is appended per
    candidate, in order; an exception leaving the inner loop ends it. *)
Fixpoint survey_candidates (df_lines : list string) (storages : list (string * string))
  : exn + list Details :=
  match storages with
  | [] => inr []
  | (name, path) :: rest =>
      match scan_df_lines path df_lines (new_details name path) with
      | (details, inr _) =>
          match survey_candidates df_lines rest with
          | inr all_storage_details => inr (details :: all_storage_details)
          | inl e => inl e
          end
      | (_, inl e) => inl e
      end
  end.

Section Device.

Variable World : Type.

(** The state transition of one [subprocess.run] call on the command
    text. *)
Variable subprocess_run : string -> World -> run_outcome * World.

Definition run_adb_command (command : string) (w : World) : adb_result * World :=
  let (o, w') := subprocess_run command w in
  (run_adb_command_result o, w').

(** Lines 97 to 103: the [df -k] report, fetched once. *)
Definition fetch_df_lines (w : World) : list string * World :=
  match run_adb_command "adb shell df -k" w with
  | ((true, stdout_df, _), w') =>
      (PyStr.split_on "010"%char (PyStr.strip stdout_df), w')
  | ((false, _, _), w') => ([], w')
  end.

(** [get_storage_details()], with the result of [get_device_storages()]
    as the argument [storages]. *)
Definition get_storage_details (storages : list (string * string)) (w : World)
  : (exn + list Details) * World :=
  match storages with
  | [] => (inr [], w)
  | _ =>
      let (df_lines, w') := fetch_df_lines w in
      (survey_candidates df_lines storages, w')
  end.

End Device.

(** ** Folder ranking *)

Definition dquote : string := String (ascii_of_nat 34) EmptyString.
Definition TAB : ascii := ascii_of_nat 9.
Definition LF : string := String (ascii_of_nat 10) EmptyString.

(** [os.path.join(a, b)] of a POSIX host, for two components. *)
Definition path_join (a b : string) : string :=
  match PyStr.chars b with
  | "/"%char :: _ => b
  | _ =>
      match PyStr.last_char a with
      | None => b
      | Some "/"%char => a ++ b
      | Some _ => a ++ "/" ++ b
      end
  end.

Definition ls_command (path : string) : string :=
  "adb shell ls -aF " ++ dquote ++ path ++ dquote.

Definition du_command (item_path : string) : string :=
  "adb shell du -sh " ++ dquote ++ item_path ++ dquote.

(** Lines 178 to 184: the child paths built from the listing. *)
Fixpoint items_of_lines (path : string) (lines : list string) : list string :=
  match lines with
  | [] => []
  | line :: rest =>
      let item_name := PyStr.strip line in
      if negb (item_name =? "")%string
         && negb ((item_name =? ".")%string || (item_name =? "..")%string)
      then PyStr.replace "\"%char "/"%char (path_join path item_name)
             :: items_of_lines path rest
      else items_of_lines path rest
  end.

Definition potential_items (path stdout_ls : string) : list string :=
  items_of_lines path (PyStr.splitlines stdout_ls).

(** [size_str and size_str[-1].isalpha()] *)
Definition has_unit (size_str : string) : bool :=
  match PyStr.last_char size_str with
  | Some c => PyStr.isalpha c
  | None => false
  end.

(** Line 202; [None] stands for [ValueError]. *)
Definition size_val_of (size_str : string) : option Float64.t :=
  if has_unit size_str
  then Float64.py_float (PyStr.drop_last size_str)
  else Float64.py_float size_str.

(** Line 203 *)
Definition unit_of (size_str : string) : string :=
  if has_unit size_str
  then match PyStr.last_char size_str with
       | Some c => String (PyStr.upper c) EmptyString
       | None => ""
       end
  else "".

(** Lines 205 to 214 *)
Definition size_bytes_of (unit : string) (size_val : Float64.t) : Float64.t :=
  if (unit =? "G")%string then Float64.mul size_val (Float64.of_Z (1024 ^ 3))
  else if (unit =? "M")%string then Float64.mul size_val (Float64.of_Z (1024 ^ 2))
  else if (unit =? "K")%string then Float64.mul size_val (Float64.of_Z 1024)
  else if (unit =? "B")%string || (unit =? "")%string then size_val
  else Float64.of_Z 0.

(** The [try] block of lines 200 to 218 on a size string: the byte size,
    or [None] when [float] raises [ValueError]. *)
Definition parse_size (size_str : string) : option Float64.t :=
  match size_val_of size_str with
  | Some size_val => Some (size_bytes_of (unit_of size_str) size_val)
  | None => None
  end.

(** Lines 195 to 218 for one item: the pair appended to
    [folder_sizes_raw], if any. *)
Definition du_entry (item_path : string) (success_du : bool) (stdout_du : string)
  : option (Float64.t * string) :=
  if success_du && negb (stdout_du =? "")%string
  then
    let line := PyStr.strip stdout_du in
    match PyStr.split_on TAB line with
    | [p0; _] =>
        let size_str := PyStr.strip p0 in
        match parse_size size_str with
        | Some size_bytes => Some (size_bytes, size_str ++ " " ++ item_path)
        | None => None
        end
    | _ => None
    end
  else None.

(** [folder_sizes_raw.sort(key=lambda x: x[0], reverse=True)]: a stable
    sort that compares keys with [<] only, largest key first. An entry
    goes in front of the first entry of the sorted rest that it is not
    less than. When no key is a nan this is the one arrangement a stable
    sort can give. With a nan among the keys [<] orders nothing against
    it, and the arrangement [list.sort] leaves depends on the merge
    strategy of the interpreter; nothing below is stated of the
    arrangement of such a list beyond the entries it holds, except on the
    one list of three entries of [Phone.odd_sizes]. *)
Fixpoint insert_desc (x : Float64.t * string) (l : list (Float64.t * string))
  : list (Float64.t * string) :=
  match l with
  | [] => [x]
  | y :: r =>
      if Float64.ltb (fst x) (fst y) then y :: insert_desc x r else x :: l
  end.

Fixpoint sort_desc (l : list (Float64.t * string)) : list (Float64.t * string) :=
  match l with
  | [] => []
  | x :: r => insert_desc x (sort_desc r)
  end.

(** [l[:count]]; a negative [count] is taken from the end. *)
Definition slice_to {A : Type} (count : Z) (l : list A) : list A :=
  if count <? 0
  then firstn (Z.to_nat (Z.of_nat (List.length l) + count)) l
  else firstn (Z.to_nat count) l.

(** Lines 224 to 227 on the collected pairs. *)
Definition top_of (folder_sizes_raw : list (Float64.t * string)) (count : Z)
  : list (Float64.t * string) :=
  slice_to count (sort_desc folder_sizes_raw).

Section Ranking.

Variable World : Type.
Variable subprocess_run : string -> World -> run_outcome * World.

(** The loop of lines 193 to 221: one [du] call per child path. *)
Fixpoint measure_items (items : list string) (w : World)
  : list (Float64.t * string) * World :=
  match items with
  | [] => ([], w)
  | item_path :: rest =>
      let '((success_du, stdout_du, _), w1) :=
        run_adb_command World subprocess_run (du_command item_path) w in
      let (raw, w2) := measure_items rest w1 in
      (match du_entry item_path success_du stdout_du with
       | Some e => e :: raw
       | None => raw
       end, w2)
  end.

Definition get_top_large_folders (path : string) (count : Z) (w : World)
  : list string * World :=
  let '((success_ls, stdout_ls, _), w1) :=
    run_adb_command World subprocess_run (ls_command path) w in
  if negb success_ls then ([], w1)
  else
    match potential_items path stdout_ls with
    | [] => ([], w1)
    | items =>
        let (folder_sizes_raw, w2) := measure_items items w1 in
        (map snd (top_of folder_sizes_raw count), w2)
    end.

(** The pairs [get_top_large_folders] collects before it sorts: the
    successfully parsed entries. *)
Definition parsed_entries (path : string) (w : World) : list (Float64.t * string) :=
  let '((success_ls, stdout_ls, _), w1) :=
    run_adb_command World subprocess_run (ls_command path) w in
  if negb success_ls then []
  else fst (measure_items (potential_items path stdout_ls) w1).

End Ranking.

(** ** The row the survey loop settles on

    [scan_df_lines] leaves the parsed numbers only inside the formatted
    fields. The definitions below name the row it reads them from; that
    they describe the loop is [scan_df_lines_matching_row]. *)

Record DfRow : Type := mkDfRow {
  mountPoint : string;
  totalKB : Z;
  usedKB : Z;
  availableKB : Z
}.

(** The three numbers the [try] block reads, with the last token. *)
Definition df_row_of (parts : list string) : option DfRow :=
  match parts with
  | _ :: t :: u :: a :: _ =>
      match PyStr.py_int t, PyStr.py_int u, PyStr.py_int a with
      | Some total, Some used, Some available =>
          Some (mkDfRow (last parts "") total used available)
      | _, _, _ => None
      end
  | _ => None
  end.

(** The float [a / b] is when the division does not leave the range. *)
Definition quotient (a b : Z) : Float64.t := Float64.div_Z a b.

Definition gb (kblocks : Z) : Float64.t := quotient kblocks (1024 ^ 2).

Definition percentage_of (row : DfRow) : Float64.t :=
  if totalKB row >? 0
  then Float64.mul (quotient (usedKB row) (totalKB row)) (Float64.of_Z 100)
  else Float64.of_Z 0.

(** The dictionary after the four assignments of the [try] block. *)
Definition render (row : DfRow) (d : Details) : Details :=
  mkDetails (name d) (path d)
    (Float64.format_2f (gb (totalKB row)) ++ " GB")
    (Float64.format_2f (gb (usedKB row)) ++ " GB")
    (Float64.format_2f (gb (availableKB row)) ++ " GB")
    (Float64.format_2f (percentage_of row) ++ "%").

(** The statements of the [try] block that follow the three [int]
    calls, on the numbers of a row. *)
Definition write_row (row : DfRow) : Try.t unit :=
  (total <- Try.truediv (totalKB row) (1024 ^ 2) ;;
   used <- Try.truediv (usedKB row) (1024 ^ 2) ;;
   available <- Try.truediv (availableKB row) (1024 ^ 2) ;;
   Try.update (set_total_gb (Float64.format_2f total ++ " GB")) ;;;
   Try.update (set_used_gb (Float64.format_2f used ++ " GB")) ;;;
   Try.update (set_available_gb (Float64.format_2f available ++ " GB")) ;;;
   percentage <- (if totalKB row >? 0
                  then r <- Try.truediv (usedKB row) (totalKB row) ;;
                       Try.ret (Float64.mul r (Float64.of_Z 100))
                  else Try.ret (Float64.of_Z 0)) ;;
   Try.update (set_percentage_used (Float64.format_2f percentage ++ "%")))%try.

(** The three numbers of a row are small enough for every division of
    the [try] block to stay in the range of the floats. *)
Definition in_range (row : DfRow) : Prop :=
  Z.abs (totalKB row) < 2 ^ 1000
  /\ Z.abs (usedKB row) < 2 ^ 1000
  /\ Z.abs (availableKB row) < 2 ^ 1000.

(** The three spellings of the internal volume. *)
Definition internal_aliases : list string :=
  ["/storage/emulated/0"; "/storage/emulated"; "/sdcard"].

(** A mount point answers a path when the two are equal, or when both
    are spellings of the internal volume. *)
Definition answers (path mount_point : string) : Prop :=
  mount_point = path
  \/ (In path internal_aliases /\ In mount_point internal_aliases).

(** A line reads as a row: it has six tokens or more, the last one is the
    mount point, and the second, third and fourth are the integers of
    the row. *)
Definition reads_as (line : string) (row : DfRow) : Prop :=
  exists fs t u a rest,
    PyStr.split line = fs :: t :: u :: a :: rest
    /\ (2 <= List.length rest)%nat
    /\ mountPoint row = last rest ""
    /\ PyStr.py_int t = Some (totalKB row)
    /\ PyStr.py_int u = Some (usedKB row)
    /\ PyStr.py_int a = Some (availableKB row).

(** The row of one line, when the line has six tokens or more, its last
    token matches [path] and its numbers parse. *)
Definition line_row (path line : string) : option DfRow :=
  let parts := PyStr.split line in
  if (6 <=? List.length parts)%nat && mount_matches path (last parts "")
  then df_row_of parts
  else None.

(** The row of the first line that has one. *)
Fixpoint matching_row (path : string) (df_lines : list string) : option DfRow :=
  match df_lines with
  | [] => None
  | line :: rest =>
      match line_row path line with
      | Some row => Some row
      | None => matching_row path rest
      end
  end.

(** [row] is the row of the first line, in the order of the output, that
    reads as a row whose mount point answers [path]. *)
Definition first_answering (path : string) (df_lines : list string) (row : DfRow)
  : Prop :=
  exists pre line post,
    df_lines = (pre ++ line :: post)%list
    /\ reads_as line row
    /\ answers path (mountPoint row)
    /\ (forall l r, In l pre -> reads_as l r -> ~ answers path (mountPoint r)).

(** All four capacity fields are still ["N/A"]. *)
Definition all_na (d : Details) : Prop :=
  total_gb d = "N/A" /\ used_gb d = "N/A"
  /\ available_gb d = "N/A" /\ percentage_used d = "N/A".

(** All four capacity fields were written from [row]. *)
Definition populated_from (row : DfRow) (d : Details) : Prop :=
  total_gb d = Float64.format_2f (gb (totalKB row)) ++ " GB"
  /\ used_gb d = Float64.format_2f (gb (usedKB row)) ++ " GB"
  /\ available_gb d = Float64.format_2f (gb (availableKB row)) ++ " GB"
  /\ percentage_used d = Float64.format_2f (percentage_of row) ++ "%".


(** ** A scripted device

    A device that answers each command from a table and records the
    commands it was given; a command outside the table exits non-zero. *)

Module Phone.

Definition World : Type := list string.

Definition answer (table : list (string * run_outcome)) (command : string)
  : run_outcome :=
  match find (fun e => (fst e =? command)%string) table with
  | Some e => snd e
  | None => CalledProcessError "" "not found"
  end.

Definition run (table : list (string * run_outcome)) (command : string) (log : World)
  : run_outcome * World :=
  (answer table command, (log ++ [command])%list).

(** A [df -k] report whose internal volume is listed under two names. *)
Definition df_two_names : list string :=
  [ "Filesystem 1K-blocks Used Available Use% Mounted on";
    "tmpfs 1048576 524288 524288 50% /storage/emulated";
    "/dev/fuse 2097152 524288 1572864 25% /sdcard" ].

Definition df_report (lines : list string) : string :=
  String.concat LF lines.

Definition with_df (lines : list string) : list (string * run_outcome) :=
  [ ("adb shell df -k", Completed (df_report lines) "") ].

Definition without_df : list (string * run_outcome) :=
  [ ("adb shell df -k", CalledProcessError "" "error: no devices/emulators found") ].

Definition candidates : list (string * string) :=
  [ ("Internal Storage", "/storage/emulated/0"); ("SD Card", "/storage/1A2B-3C4D") ].

Definition tab : string := String TAB EmptyString.

(** A listing as [ls -aF] prints it, and the [du -sh] answers. *)
Definition listing : list (string * run_outcome) :=
  [ (ls_command "/sdcard", Completed ("./" ++ LF ++ "../" ++ LF ++ "DCIM/" ++ LF) "");
    (du_command "/sdcard/./", Completed ("12G" ++ tab ++ "/sdcard/./" ++ LF) "");
    (du_command "/sdcard/../", Completed ("25G" ++ tab ++ "/sdcard/../" ++ LF) "");
    (du_command "/sdcard/DCIM/", Completed ("3.5G" ++ tab ++ "/sdcard/DCIM/" ++ LF) "") ].

Definition du_answer (size item : string) : string * run_outcome :=
  (du_command ("/sdcard/" ++ item), Completed (size ++ tab ++ "/sdcard/" ++ item ++ LF) "").


(** Three entries, the second with a size that [float] reads as a nan. *)
Definition odd_sizes : list (string * run_outcome) :=
  [ (ls_command "/sdcard", Completed (String.concat LF ["a"; "b"; "c"]) "");
    du_answer "1K" "a";
    du_answer "nanK" "b";
    du_answer "2K" "c" ].

(** A number of 321 digits. *)
Definition huge : string := "1" ++ String.concat "" (repeat "0" 320).

End Phone.

(** The dictionary of one candidate, by the row its path settles on. *)
Definition detail_of (df_lines : list string) (candidate : string * string) : Details :=
  let d := new_details (fst candidate) (snd candidate) in
  match matching_row (snd candidate) df_lines with
  | Some row => render row d
  | None => d
  end.

(** A list with the one pair ranked for the size string [s], or no pair
    when [s] does not parse. *)
Definition sized (s : string) : list (Float64.t * string) :=
  match parse_size s with
  | Some size_bytes => [(size_bytes, s)]
  | None => []
  end.

(** None of the four capacity fields is ["N/A"]. *)
Definition none_na (d : Details) : Prop :=
  total_gb d <> "N/A" /\ used_gb d <> "N/A"
  /\ available_gb d <> "N/A" /\ percentage_used d <> "N/A".

(** ** Device properties *)

(** A Python [dict] with string keys, in insertion order: an assignment
    to a key that is present replaces its value in place, an assignment
    to a new key appends it. *)
Fixpoint dict_set {V : Type} (k : string) (v : V) (d : list (string * V))
  : list (string * V) :=
  match d with
  | [] => [(k, v)]
  | (k', v') :: r =>
      if (k' =? k)%string then (k, v) :: r else (k', v') :: dict_set k v r
  end.

Fixpoint dict_get {V : Type} (k : string) (d : list (string * V)) : option V :=
  match d with
  | [] => None
  | (k', v') :: r => if (k' =? k)%string then Some v' else dict_get k r
  end.

(** [k in keys] *)
Definition member (k : string) (keys : list string) : bool :=
  existsb (fun k' => (k' =? k)%string) keys.

(** What [get_adb_shell_prop_output] returns for an outcome of
    [subprocess.run]: the captured output, or [None] after any of the
    three [except] clauses. *)
Definition prop_output_of (o : run_outcome) : option string :=
  match o with
  | Completed out _ => Some out
  | CalledProcessError _ _ => None
  | FileNotFoundError => None
  | OtherException _ => None
  end.

Definition desired_props : list string :=
  ["net.bt.name"; "ro.product.model"; "ro.product.manufacturer"; "net.hostname"].

(** The dictionary [get_device_info] starts with. *)
Definition default_info : list (string * string) :=
  [("net.bt.name", "N/A"); ("ro.product.model", "N/A");
   ("ro.product.manufacturer", "N/A"); ("net.hostname", "N/A")].

(** What lines 68 to 72 make of one line of the [getprop] output. *)
Inductive prop_line : Type :=
| Entry (key value : string)
| Unpack_ValueError
| NotAProperty.

Definition read_prop_line (line : string) : prop_line :=
  if PyStr.startswith line "["
     && PyStr.contains "]: [" line
     && PyStr.endswith line "]"
  then
    match PyStr.split_once "]: [" line with
    | [key_part; value_part] =>
        Entry (PyStr.drop_first key_part) (PyStr.drop_last value_part)
    | _ => Unpack_ValueError
    end
  else NotAProperty.

(** The body of the loop of lines 67 to 76, for the key set [wanted]. *)
Definition record_prop (wanted : list string) (info : list (string * string))
  (line : string) : list (string * string) :=
  match read_prop_line line with
  | Entry key value => if member key wanted then dict_set key value info else info
  | Unpack_ValueError => info
  | NotAProperty => info
  end.

(** Lines 53 to 77 of [get_device_info] on the value returned by
    [get_adb_shell_prop_output]. *)
Definition device_info_of (prop_output : option string) : list (string * string) :=
  match prop_output with
  | Some out =>
      if (out =? "")%string then default_info
      else fold_left (record_prop desired_props) (PyStr.splitlines out) default_info
  | None => default_info
  end.

(** ** Connection status *)

Definition mentions_trouble (line : string) : bool :=
  PyStr.contains "offline" line || PyStr.contains "unauthorized" line.

(** Lines 240 to 251 of [check_adb_status] on the captured output. *)
Definition devices_ready (output : string) : bool :=
  if PyStr.contains "List of devices attached" output
  then
    let lines := PyStr.split_on "010"%char (PyStr.strip output) in
    (1 <? List.length lines)%nat && negb (existsb mentions_trouble (tl lines))
  else false.

(** [check_adb_status] on an outcome of [subprocess.run]: its boolean, or
    the text of an exception that neither [except] clause accepts. *)
Definition check_adb_status_of (o : run_outcome) : string + bool :=
  match o with
  | Completed output _ => inr (devices_ready output)
  | CalledProcessError _ _ => inr false
  | FileNotFoundError => inr false
  | OtherException msg => inl msg
  end.

(** What the loop of lines 292 to 312 of
    [list_connected_devices_and_details] reports. *)
Inductive debugging_mode : Type :=
| Authorized
| Unauthorized
| Offline
| NotConnected
| NothingReported.

Fixpoint first_status (lines : list string) : option debugging_mode :=
  match lines with
  | [] => None
  | line :: rest =>
      if PyStr.contains (String TAB "device") line then Some Authorized
      else if PyStr.contains (String TAB "unauthorized") line then Some Unauthorized
      else if PyStr.contains (String TAB "offline") line then Some Offline
      else first_status rest
  end.

Definition debugging_mode_of (stdout : string) : debugging_mode :=
  let output_lines := PyStr.split_on "010"%char (PyStr.strip stdout) in
  match first_status (tl output_lines) with
  | Some mode => mode
  | None =>
      if (List.length output_lines <=? 1)%nat then NotConnected else NothingReported
  end.

(** ** The storage section of the device listing *)

(** One turn of the loop of lines 375 to 385: the dictionary
    [consolidated_storage_info] and the flag [internal_storage_0_found]. *)
Definition consolidate_step (acc : list (string * Details) * bool) (store : Details)
  : list (string * Details) * bool :=
  let (info, internal_storage_0_found) := acc in
  if (path store =? "/storage/emulated/0")%string
  then (dict_set "Internal Storage" store info, true)
  else if (path store =? "/storage/emulated")%string && negb internal_storage_0_found
  then (dict_set "Internal Storage" store info, internal_storage_0_found)
  else if PyStr.contains "SD Card" (name store)
          || PyStr.contains "External Storage" (name store)
  then (dict_set (name store) store info, internal_storage_0_found)
  else (dict_set (name store) store info, internal_storage_0_found).

Definition consolidate (storage_details : list Details) : list (string * Details) :=
  fst (fold_left consolidate_step storage_details ([], false)).

Section Listing.

Variable World : Type.
Variable subprocess_run : string -> World -> run_outcome * World.

Definition get_adb_shell_prop_output (w : World) : option string * World :=
  let (o, w') := subprocess_run "adb shell getprop" w in
  (prop_output_of o, w').

Definition get_device_info (w : World) : list (string * string) * World :=
  let (prop_output, w') := get_adb_shell_prop_output w in
  (device_info_of prop_output, w').

Definition check_adb_status (w : World) : (string + bool) * World :=
  let (o, w') := subprocess_run "adb devices" w in
  (check_adb_status_of o, w').

(** The loop of lines 390 to 406: for each entry of the consolidated
    dictionary, its name, its dictionary and its five largest items. *)
Fixpoint storage_sections (entries : list (string * Details)) (w : World)
  : list (string * Details * list string) * World :=
  match entries with
  | [] => ([], w)
  | (storage_name, store) :: rest =>
      let (top_folders, w1) :=
        get_top_large_folders World subprocess_run (path store) 5 w in
      let (sections, w2) := storage_sections rest w1 in
      ((storage_name, store, top_folders) :: sections, w2)
  end.

(** Lines 368 to 408, with the result of [get_device_storages()] as the
    argument [storages]. *)
Definition storage_information (storages : list (string * string)) (w : World)
  : (exn + list (string * Details * list string)) * World :=
  match get_storage_details World subprocess_run storages w with
  | (inr storage_details, w1) =>
      let (sections, w2) := storage_sections (consolidate storage_details) w1 in
      (inr sections, w2)
  | (inl e, w1) => (inl e, w1)
  end.

(** [kill_and_restart_adb_server()], with the answer given to [input] as
    the argument [answer]. *)
Definition kill_and_restart_adb_server (answer : string) (w : World) : World :=
  if (PyStr.lower answer =? "yes")%string
  then
    let (_, w1) := run_adb_command World subprocess_run "adb kill-server" w in
    let (_, w2) := run_adb_command World subprocess_run "adb start-server" w1 in
    w2
  else w.

End Listing.

(** ** The menu of main.py *)

(** The functions the menu calls. *)
Inductive menu_action : Type :=
| ListConnectedDevicesAndDetails
| BrowseMobileStorage
| BackupMobileToPc
| PushPcToMobile
| BackupAllUserData
| EnterAdbShell
| KillAndRestartAdbServer.

(** How [main] ends: the [break] of choice 0, the [return] after a failed
    status check, or [EOFError] from [input] when no answer is left. *)
Inductive menu_end : Type :=
| Exited
| NotReady
| InputExhausted.

(** The chain of comparisons of lines 34 to 47, choice 0 apart. *)
Definition action_of (choice : string) : option menu_action :=
  if (choice =? "1")%string then Some ListConnectedDevicesAndDetails
  else if (choice =? "2")%string then Some BrowseMobileStorage
  else if (choice =? "3")%string then Some BackupMobileToPc
  else if (choice =? "4")%string then Some PushPcToMobile
  else if (choice =? "5")%string then Some BackupAllUserData
  else if (choice =? "6")%string then Some EnterAdbShell
  else if (choice =? "7")%string then Some KillAndRestartAdbServer
  else None.

(** The [while True] loop of [main] over the answers given at the menu
    prompt, each called function being taken to return: the calls made,
    in order, and how the loop ends. *)
Fixpoint menu_loop (choices : list string) : list menu_action * menu_end :=
  match choices with
  | [] => ([], InputExhausted)
  | choice :: rest =>
      match action_of choice with
      | Some action =>
          let (actions, ending) := menu_loop rest in (action :: actions, ending)
      | None =>
          if (choice =? "0")%string then ([], Exited) else menu_loop rest
      end
  end.

(** [main()] on the result of [check_adb_status()]. *)
Definition main_of (status : string + bool) (choices : list string)
  : string + (list menu_action * menu_end) :=
  match status with
  | inr true => inr (menu_loop choices)
  | inr false => inr ([], NotReady)
  | inl msg => inl msg
  end.

(** The calls the recognised answers of a list stand for. *)
Definition actions_of (choices : list string) : list menu_action :=
  flat_map (fun choice => match action_of choice with
                          | Some action => [action]
                          | None => []
                          end) choices.

(** The commands one part of the storage section gives to the scripted
    device: the listing of the path, then one [du] per child path when
    the listing succeeds. *)
Definition section_commands (table : list (string * run_outcome))
  (entry : string * Details) : list string :=
  ls_command (path (snd entry))
    :: match Phone.answer table (ls_command (path (snd entry))) with
       | Completed stdout_ls _ =>
           map du_command (potential_items (path (snd entry)) stdout_ls)
       | CalledProcessError _ _ => []
       | FileNotFoundError => []
       | OtherException _ => []
       end.

(** * Properties *)

(** ** The [try] block and the survey loop *)

(** Runs the statements of a [try] block up to the next parse or
    division. *)
Ltac try_steps :=
  cbv beta iota delta
    [fill_details write_row Try.bind Try.item Try.int Try.ret Try.raise Try.update
     nth_error].

Lemma threshold_above_range : 2 ^ 1000 < Float64.threshold.
Proof. reflexivity. Qed.

(** A division of two integers ends in one of two ways. *)
Lemma truediv_cases (a b : Z) (d : Details) :
  b <> 0 ->
  Try.truediv a b d = (d, inr (quotient a b))
  \/ Try.truediv a b d = (d, inl OverflowError).
Proof.
  intros Hb. unfold Try.truediv.
  destruct (Z.eqb_spec b 0) as [H0 | _]; [contradiction |].
  destruct (Float64.threshold * Z.abs b <=? Z.abs a); [right | left]; reflexivity.
Qed.

(** It does not leave the range when the dividend is below [2 ** 1000]. *)
Lemma truediv_in_range (a b : Z) (d : Details) :
  b <> 0 -> Z.abs a < 2 ^ 1000 ->
  Try.truediv a b d = (d, inr (quotient a b)).
Proof.
  intros Hb Ha. unfold Try.truediv.
  destruct (Z.eqb_spec b 0) as [H0 | _]; [contradiction |].
  pose proof threshold_above_range as Ht.
  destruct (Z.leb_spec (Float64.threshold * Z.abs b) (Z.abs a)) as [Hle | _];
    [| reflexivity].
  exfalso. revert Ht Hle Ha. generalize Float64.threshold (2 ^ 1000). intros T B.
  nia.
Qed.

(** Once the three numbers are parsed the block goes on as [write_row]. *)
Lemma fill_details_row (parts : list string) (row : DfRow) (d : Details) :
  df_row_of parts = Some row ->
  fill_details parts d = write_row row d.
Proof.
  destruct parts as [| p0 [| t [| u [| a rest]]]]; try discriminate.
  unfold df_row_of.
  destruct (PyStr.py_int t) as [total |] eqn:Et; [| discriminate].
  destruct (PyStr.py_int u) as [used |] eqn:Eu; [| discriminate].
  destruct (PyStr.py_int a) as [available |] eqn:Ea; [| discriminate].
  intros [= <-].
  try_steps. rewrite Et. try_steps. rewrite Eu. try_steps. rewrite Ea. try_steps.
  reflexivity.
Qed.

(** When they do not parse, the block raises an exception that the loop
    accepts, before any field is written. *)
Lemma fill_details_no_row (parts : list string) (d : Details) :
  df_row_of parts = None ->
  fill_details parts d = (d, inl ValueError)
  \/ fill_details parts d = (d, inl IndexError).
Proof.
  intros Hrow.
  destruct parts as [| p0 [| t [| u [| a rest]]]];
    try (right; reflexivity).
  - try_steps. destruct (PyStr.py_int t); [right | left]; reflexivity.
  - try_steps. destruct (PyStr.py_int t); [| left; reflexivity].
    try_steps. destruct (PyStr.py_int u); [right | left]; reflexivity.
  - unfold df_row_of in Hrow. try_steps.
    destruct (PyStr.py_int t); [| left; reflexivity].
    try_steps. destruct (PyStr.py_int u); [| left; reflexivity].
    try_steps. destruct (PyStr.py_int a); [discriminate Hrow | left; reflexivity].
Qed.

Lemma pow_1024_2_nonzero : 1024 ^ 2 <> 0.
Proof. discriminate. Qed.

(** The rest of the block either writes the four fields or raises
    [OverflowError] from one of its divisions. *)
Lemma write_row_cases (row : DfRow) (d : Details) :
  write_row row d = (render row d, inr tt)
  \/ exists d', write_row row d = (d', inl OverflowError).
Proof.
  try_steps.
  destruct (truediv_cases (totalKB row) (1024 ^ 2) d pow_1024_2_nonzero) as [-> | ->];
    [| right; eexists; reflexivity].
  destruct (truediv_cases (usedKB row) (1024 ^ 2) d pow_1024_2_nonzero) as [-> | ->];
    [| right; eexists; reflexivity].
  destruct (truediv_cases (availableKB row) (1024 ^ 2) d pow_1024_2_nonzero)
    as [-> | ->]; [| right; eexists; reflexivity].
  unfold render, percentage_of.
  destruct (totalKB row >? 0) eqn:Hpos.
  - match goal with
    | |- context [Try.truediv ?a ?b ?d0] =>
        destruct (truediv_cases a b d0) as [-> | ->]
    end.
    + apply Z.gtb_lt in Hpos. lia.
    + left. reflexivity.
    + right. eexists. reflexivity.
  - left. reflexivity.
Qed.

(** With the three numbers in range it writes the four fields. *)
Lemma write_row_in_range (row : DfRow) (d : Details) :
  in_range row -> write_row row d = (render row d, inr tt).
Proof.
  intros (Ht & Hu & Ha). try_steps.
  rewrite (truediv_in_range _ _ _ pow_1024_2_nonzero Ht).
  rewrite (truediv_in_range _ _ _ pow_1024_2_nonzero Hu).
  rewrite (truediv_in_range _ _ _ pow_1024_2_nonzero Ha).
  unfold render, percentage_of.
  destruct (totalKB row >? 0) eqn:Hpos; [| reflexivity].
  rewrite truediv_in_range; [reflexivity | | exact Hu].
  apply Z.gtb_lt in Hpos. lia.
Qed.

(** The loop stops at the first line that has a row and runs the block
    on it; with no such line the dictionary is returned as it was. *)
Lemma scan_df_lines_matching_row (path : string) (df_lines : list string) (d : Details) :
  scan_df_lines path df_lines d =
  match matching_row path df_lines with
  | Some row =>
      match write_row row d with
      | (d', inr _) => (d', inr true)
      | (d', inl e) => (d', inl e)
      end
  | None => (d, inr false)
  end.
Proof.
  induction df_lines as [| line rest IH]; [reflexivity |].
  cbn [scan_df_lines matching_row]. unfold line_row.
  destruct (6 <=? List.length (PyStr.split line))%nat; cbn [andb]; [| exact IH].
  destruct (mount_matches path (last (PyStr.split line) "")); [| exact IH].
  destruct (df_row_of (PyStr.split line)) as [row |] eqn:Hrow.
  - rewrite (fill_details_row _ _ _ Hrow).
    destruct (write_row_cases row d) as [-> | [d' ->]]; reflexivity.
  - destruct (fill_details_no_row _ d Hrow) as [-> | ->]; exact IH.
Qed.

Lemma scan_df_lines_in_range (path : string) (df_lines : list string) (d : Details)
  (row : DfRow) :
  matching_row path df_lines = Some row -> in_range row ->
  scan_df_lines path df_lines d = (render row d, inr true).
Proof.
  intros Hrow Hrange. rewrite scan_df_lines_matching_row, Hrow.
  rewrite (write_row_in_range _ _ Hrange). reflexivity.
Qed.

(** What a normal end of the loop tells. *)
Lemma scan_df_lines_returns (path : string) (df_lines : list string) (d d' : Details)
  (found : bool) :
  scan_df_lines path df_lines d = (d', inr found) ->
  (matching_row path df_lines = None /\ d' = d /\ found = false)
  \/ (exists row, matching_row path df_lines = Some row
                  /\ d' = render row d /\ found = true).
Proof.
  rewrite scan_df_lines_matching_row.
  destruct (matching_row path df_lines) as [row |].
  - destruct (write_row_cases row d) as [-> | [d0 ->]]; [| discriminate].
    intros [= <- <-]. right. exists row. auto.
  - intros [= <- <-]. left. auto.
Qed.

(** The only exception that leaves the loop. *)
Lemma scan_df_lines_raises (path : string) (df_lines : list string) (d d' : Details)
  (e : exn) :
  scan_df_lines path df_lines d = (d', inl e) ->
  e = OverflowError
  /\ exists row, matching_row path df_lines = Some row /\ ~ in_range row.
Proof.
  rewrite scan_df_lines_matching_row.
  destruct (matching_row path df_lines) as [row |]; [| discriminate].
  destruct (write_row_cases row d) as [Hw | [d0 Hw]]; rewrite Hw; [discriminate |].
  intros [= <- <-]. split; [reflexivity |]. exists row. split; [reflexivity |].
  intros Hrange. rewrite (write_row_in_range _ _ Hrange) in Hw. discriminate Hw.
Qed.

Lemma matching_row_from_line (path : string) (df_lines : list string) (row : DfRow) :
  matching_row path df_lines = Some row ->
  exists line, In line df_lines /\ line_row path line = Some row.
Proof.
  induction df_lines as [| line rest IH]; [discriminate |].
  cbn [matching_row]. destruct (line_row path line) as [r |] eqn:Hline.
  - intros [= <-]. exists line. split; [left; reflexivity | exact Hline].
  - intros H. destruct (IH H) as (l & Hin & Hl).
    exists l. split; [right; exact Hin | exact Hl].
Qed.

(** Lines before the first one that has a row do not count. *)
Lemma matching_row_first (path : string) (pre post : list string) (line : string) (row : DfRow) :
  (forall l, In l pre -> line_row path l = None) ->
  line_row path line = Some row ->
  matching_row path (pre ++ line :: post) = Some row.
Proof.
  intros Hpre Hline. induction pre as [| l pre IH]; cbn [app matching_row].
  - rewrite Hline. reflexivity.
  - rewrite (Hpre l (or_introl eq_refl)).
    apply IH. intros l' Hin. apply Hpre. right. exact Hin.
Qed.

(** The line the loop stops at, with what precedes and follows it. *)
Lemma matching_row_split (path : string) (df_lines : list string) (row : DfRow) :
  matching_row path df_lines = Some row ->
  exists pre line post,
    df_lines = (pre ++ line :: post)%list
    /\ line_row path line = Some row
    /\ (forall l, In l pre -> line_row path l = None).
Proof.
  induction df_lines as [| l rest IH]; [discriminate |].
  cbn [matching_row]. destruct (line_row path l) as [r |] eqn:Hl.
  - intros [= <-]. exists [], l, rest. split; [reflexivity |].
    split; [exact Hl | intros l' []].
  - intros H. destruct (IH H) as (pre & line & post & -> & Hline & Hpre).
    exists (l :: pre), line, post. split; [reflexivity |].
    split; [exact Hline |].
    intros l' [<- | Hin]; [exact Hl | exact (Hpre l' Hin)].
Qed.

(** ** The matching rule *)

Lemma is_internal_aliases (p : string) :
  is_internal p = true <-> In p internal_aliases.
Proof.
  unfold is_internal, internal_aliases. cbn [In].
  rewrite !orb_true_iff, !String.eqb_eq. intuition auto.
Qed.

Lemma mount_matches_answers (path mount_point : string) :
  mount_matches path mount_point = true <-> answers path mount_point.
Proof.
  unfold mount_matches, answers.
  rewrite orb_true_iff, andb_true_iff, String.eqb_eq, !is_internal_aliases.
  reflexivity.
Qed.

Lemma last_cons_cons {A : Type} (x : A) (l : list A) (d : A) :
  l <> [] -> last (x :: l) d = last l d.
Proof. destruct l; [contradiction | reflexivity]. Qed.

(** The row the model reads from a line is the row the line reads as. *)
Lemma line_row_reads (path line : string) (row : DfRow) :
  line_row path line = Some row
  <-> reads_as line row /\ answers path (mountPoint row).
Proof.
  unfold line_row, reads_as. split.
  - destruct (Nat.leb_spec 6 (List.length (PyStr.split line))) as [Hlen |];
      cbn [andb]; [| discriminate].
    destruct (mount_matches path (last (PyStr.split line) "")) eqn:Hm; [| discriminate].
    destruct (PyStr.split line) as [| fs [| t [| u [| a rest]]]] eqn:Hsplit;
      try discriminate.
    unfold df_row_of.
    destruct (PyStr.py_int t) as [total |] eqn:Et; [| discriminate].
    destruct (PyStr.py_int u) as [used |] eqn:Eu; [| discriminate].
    destruct (PyStr.py_int a) as [available |] eqn:Ea; [| discriminate].
    intros [= <-]. cbn [mountPoint totalKB usedKB availableKB].
    cbn [List.length] in Hlen.
    assert (Hrest : rest <> []) by (intros ->; cbn in Hlen; lia).
    assert (Hlast : last (fs :: t :: u :: a :: rest) "" = last rest "").
    { rewrite (last_cons_cons fs) by discriminate.
      rewrite (last_cons_cons t) by discriminate.
      rewrite (last_cons_cons u) by discriminate.
      apply last_cons_cons. exact Hrest. }
    split.
    + exists fs, t, u, a, rest.
      split; [reflexivity |]. split; [lia |]. split; [exact Hlast |].
      split; [exact Et |]. split; [exact Eu | exact Ea].
    + apply mount_matches_answers. exact Hm.
  - intros [(fs & t & u & a & rest & Hsplit & Hlen & Hmount & Ht & Hu & Ha) Hans].
    rewrite Hsplit.
    assert (Hrest : rest <> []) by (intros ->; cbn in Hlen; lia).
    assert (Hlast : last (fs :: t :: u :: a :: rest) "" = last rest "").
    { rewrite (last_cons_cons fs) by discriminate.
      rewrite (last_cons_cons t) by discriminate.
      rewrite (last_cons_cons u) by discriminate.
      apply last_cons_cons. exact Hrest. }
    destruct (Nat.leb_spec 6 (List.length (fs :: t :: u :: a :: rest))) as [_ | Hshort];
      [| cbn [List.length] in Hshort; lia].
    cbn [andb]. rewrite Hlast, <- Hmount.
    apply mount_matches_answers in Hans. rewrite Hans.
    unfold df_row_of. rewrite Ht, Hu, Ha, Hlast, <- Hmount.
    destruct row; reflexivity.
Qed.

(** A line reads as one row at most. *)
Lemma reads_as_unique (line : string) (r1 r2 : DfRow) :
  reads_as line r1 -> reads_as line r2 -> r1 = r2.
Proof.
  intros (fs & t & u & a & rest & Hs & _ & Hm & Ht & Hu & Ha)
         (fs' & t' & u' & a' & rest' & Hs' & _ & Hm' & Ht' & Hu' & Ha').
  rewrite Hs in Hs'. injection Hs' as <- <- <- <- <-.
  destruct r1, r2. cbn in *. congruence.
Qed.

(** The row the loop stops at is the first row that answers the path. *)
Lemma matching_row_first_answering (path : string) (df_lines : list string) (row : DfRow) :
  matching_row path df_lines = Some row <-> first_answering path df_lines row.
Proof.
  unfold first_answering. split.
  - intros H. destruct (matching_row_split _ _ _ H) as (pre & line & post & -> & Hl & Hpre).
    apply line_row_reads in Hl. destruct Hl as [Hreads Hans].
    exists pre, line, post. repeat split; try assumption.
    intros l r Hin Hr Ha.
    assert (Hsome : line_row path l = Some r) by (apply line_row_reads; auto).
    rewrite (Hpre l Hin) in Hsome. discriminate Hsome.
  - intros (pre & line & post & -> & Hreads & Hans & Hpre).
    apply matching_row_first.
    + intros l Hin. destruct (line_row path l) as [r |] eqn:Hl; [| reflexivity].
      apply line_row_reads in Hl. destruct Hl as [Hr Ha].
      exfalso. exact (Hpre l r Hin Hr Ha).
    + apply line_row_reads. auto.
Qed.

(** ** The survey *)

(** When the loop over the candidates returns, each dictionary is the one
    of its candidate. *)
Lemma survey_candidates_returns (df_lines : list string) (storages : list (string * string))
  (ds : list Details) :
  survey_candidates df_lines storages = inr ds ->
  ds = map (detail_of df_lines) storages.
Proof.
  revert ds. induction storages as [| [n p] rest IH]; intros ds.
  - intros [= <-]. reflexivity.
  - cbn [survey_candidates map].
    destruct (scan_df_lines p df_lines (new_details n p)) as [d' [e | found]] eqn:Hscan;
      [discriminate |].
    destruct (survey_candidates df_lines rest) as [e | ds']; [discriminate |].
    intros [= <-]. rewrite <- (IH ds' eq_refl). f_equal.
    unfold detail_of. cbn [fst snd].
    destruct (scan_df_lines_returns _ _ _ _ _ Hscan)
      as [(-> & -> & _) | (row & -> & -> & _)]; reflexivity.
Qed.

(** It returns when every row it stops at is in range. *)
Lemma survey_candidates_in_range (df_lines : list string) (storages : list (string * string)) :
  (forall candidate row,
     In candidate storages ->
     matching_row (snd candidate) df_lines = Some row -> in_range row) ->
  survey_candidates df_lines storages = inr (map (detail_of df_lines) storages).
Proof.
  induction storages as [| [n p] rest IH]; intros Hrange; [reflexivity |].
  cbn [survey_candidates map]. rewrite IH.
  - assert (Hd : detail_of df_lines (n, p)
                 = match matching_row p df_lines with
                   | Some row => render row (new_details n p)
                   | None => new_details n p
                   end) by reflexivity.
    rewrite Hd, scan_df_lines_matching_row.
    destruct (matching_row p df_lines) as [row |] eqn:Hrow; [| reflexivity].
    rewrite write_row_in_range; [reflexivity |].
    apply (Hrange (n, p) row); [left; reflexivity | exact Hrow].
  - intros c row Hin. apply Hrange. right. exact Hin.
Qed.

(** Only [OverflowError] leaves it. *)
Lemma survey_candidates_raises (df_lines : list string) (storages : list (string * string))
  (e : exn) :
  survey_candidates df_lines storages = inl e ->
  e = OverflowError
  /\ exists candidate row,
       In candidate storages
       /\ matching_row (snd candidate) df_lines = Some row
       /\ ~ in_range row.
Proof.
  induction storages as [| [n p] rest IH]; [discriminate |].
  cbn [survey_candidates].
  destruct (scan_df_lines p df_lines (new_details n p)) as [d' [e0 | found]] eqn:Hscan.
  - intros [= <-]. destruct (scan_df_lines_raises _ _ _ _ _ Hscan) as [-> (row & Hrow & Hout)].
    split; [reflexivity |]. exists (n, p), row.
    split; [left; reflexivity | split; assumption].
  - destruct (survey_candidates df_lines rest) as [e0 | ds']; [| discriminate].
    intros [= <-]. destruct (IH eq_refl) as [-> (c & row & Hin & Hrow & Hout)].
    split; [reflexivity |]. exists c, row.
    split; [right; exact Hin | split; assumption].
Qed.

Lemma detail_of_no_lines (candidate : string * string) :
  detail_of [] candidate = new_details (fst candidate) (snd candidate).
Proof. reflexivity. Qed.

Lemma detail_of_candidate (df_lines : list string) (candidate : string * string) :
  (name (detail_of df_lines candidate), path (detail_of df_lines candidate)) = candidate.
Proof.
  unfold detail_of. destruct candidate as [n p]. cbn [fst snd].
  destruct (matching_row p df_lines); reflexivity.
Qed.

Lemma length_append (s1 s2 : string) :
  String.length (s1 ++ s2) = (String.length s1 + String.length s2)%nat.
Proof.
  induction s1 as [| c s1 IH]; [reflexivity |].
  cbn [append String.length]. rewrite IH. reflexivity.
Qed.

(** A formatted number is longer than ["N/A"] once it has its suffix. *)
Lemma format_2f_not_na (x : Float64.t) (c : ascii) (suffix : string) :
  Float64.format_2f x ++ String c suffix <> "N/A".
Proof.
  intros H. apply (f_equal String.length) in H.
  destruct x as [q | | [|] |]; cbn [Float64.format_2f] in H.
  - unfold PyFormat.fmt2f in H. rewrite !length_append in H.
    cbn [String.length PyFormat.digit] in H. lia.
  - cbn in H. lia.
  - cbn in H. lia.
  - cbn in H. lia.
  - cbn in H. lia.
Qed.

Lemma render_none_na (row : DfRow) (d : Details) : none_na (render row d).
Proof.
  unfold none_na, render. cbn [total_gb used_gb available_gb percentage_used].
  repeat split; apply format_2f_not_na.
Qed.

(** ** The command runner *)

(** C9. On a host where [adb] is not installed the diagnostic that
    [run_adb_command] returns is the one of the shell, not the fixed
    message of the [except FileNotFoundError] clause: with [shell=True]
    the missing program makes the shell end with status 127, which
    [check=True] turns into [CalledProcessError], and the triple returned
    carries whatever the shell printed. The fixed message is returned
    only when the shell itself cannot be started. *)
Theorem missing_adb_reported_by_the_shell :
  (forall out err,
     run_adb_command_result (outcome_of_shell (ShellExit 127 out err))
     = (false, out, err))
  /\ run_adb_command_result (outcome_of_shell (shell_without "adb"))
     = (false, "", "/bin/sh: 1: adb: not found" ++ String (ascii_of_nat 10) EmptyString)
  /\ run_adb_command_result (outcome_of_shell (shell_without "adb"))
     <> (false, "",
         "Error: 'adb' command not found. Please ensure ADB is installed and added to your system's PATH.")
  /\ run_adb_command_result (outcome_of_shell ShellNotFound)
     = (false, "",
        "Error: 'adb' command not found. Please ensure ADB is installed and added to your system's PATH.").
Proof. repeat split. discriminate. Qed.

Section DeviceProperties.

Variable World : Type.
Variable subprocess_run : string -> World -> run_outcome * World.

Lemma get_storage_details_survey (storages : list (string * string)) (w : World) :
  fst (get_storage_details World subprocess_run storages w)
  = survey_candidates (fst (fetch_df_lines World subprocess_run w)) storages.
Proof.
  unfold get_storage_details. destruct storages as [| c rest]; [reflexivity |].
  destruct (fetch_df_lines World subprocess_run w) as [df_lines w']. reflexivity.
Qed.

(** C6. When the [df -k] call reports failure, [get_storage_details]
    returns normally, with one dictionary per candidate, in order, whose
    four capacity fields are all ["N/A"]. *)
Theorem df_failure_degrades
  (storages : list (string * string)) (w w' : World) (out err : string) :
  run_adb_command World subprocess_run "adb shell df -k" w = ((false, out, err), w') ->
  fst (get_storage_details World subprocess_run storages w)
  = inr (map (fun c => mkDetails (fst c) (snd c) "N/A" "N/A" "N/A" "N/A") storages).
Proof.
  intros Hdf. rewrite get_storage_details_survey.
  unfold fetch_df_lines. rewrite Hdf. cbn [fst].
  rewrite survey_candidates_in_range; [reflexivity |].
  intros c row _ Hrow. discriminate Hrow.
Qed.

(** C10. Whenever [get_storage_details] returns, it returns one
    dictionary per candidate, in the order of the candidates, and in each
    dictionary either the four capacity fields are all still ["N/A"] or
    all four were written from one row of the [df -k] report and none of
    them is ["N/A"]. It returns whenever no integer token of the report
    reaches [2 ** 1000]. *)
Theorem all_or_nothing (storages : list (string * string)) (w : World) :
  (forall ds,
     fst (get_storage_details World subprocess_run storages w) = inr ds ->
     map (fun d => (name d, path d)) ds = storages
     /\ Forall (fun d =>
                  all_na d
                  \/ exists line row,
                      In line (fst (fetch_df_lines World subprocess_run w))
                      /\ reads_as line row
                      /\ answers (path d) (mountPoint row)
                      /\ populated_from row d
                      /\ none_na d) ds)
  /\ ((forall line token z,
         In line (fst (fetch_df_lines World subprocess_run w)) ->
         In token (PyStr.split line) ->
         PyStr.py_int token = Some z ->
         Z.abs z < 2 ^ 1000) ->
      exists ds, fst (get_storage_details World subprocess_run storages w) = inr ds).
Proof.
  rewrite get_storage_details_survey.
  set (df_lines := fst (fetch_df_lines World subprocess_run w)).
  split.
  - intros ds Hds. apply survey_candidates_returns in Hds. subst ds. split.
    + rewrite map_map. rewrite <- (map_id storages) at 2.
      apply map_ext. intros c. apply detail_of_candidate.
    + apply Forall_forall. intros d Hd.
      apply in_map_iff in Hd. destruct Hd as ([n p] & <- & _).
      unfold detail_of. cbn [fst snd].
      destruct (matching_row p df_lines) as [row |] eqn:Hrow.
      * right. destruct (matching_row_from_line _ _ _ Hrow) as (line & Hin & Hline).
        apply line_row_reads in Hline. destruct Hline as [Hreads Hans].
        exists line, row. split; [exact Hin |]. split; [exact Hreads |].
        split; [exact Hans |].
        split; [repeat split | apply render_none_na].
      * left. repeat split.
  - intros Hsmall. eexists. apply survey_candidates_in_range.
    intros c row _ Hrow.
    destruct (matching_row_from_line _ _ _ Hrow) as (line & Hin & Hline).
    apply line_row_reads in Hline.
    destruct Hline as [(fs & t & u & a & rest & Hsplit & _ & _ & Ht & Hu & Ha) _].
    assert (Htok : forall x, In x [t; u; a] -> In x (PyStr.split line)).
    { intros x Hx. rewrite Hsplit. cbn [In] in *. intuition auto. }
    repeat split.
    + apply (Hsmall line t); [exact Hin | apply Htok; cbn; auto | exact Ht].
    + apply (Hsmall line u); [exact Hin | apply Htok; cbn; auto | exact Hu].
    + apply (Hsmall line a); [exact Hin | apply Htok; cbn; auto | exact Ha].
Qed.

End DeviceProperties.

Lemma df_failure_degrades_witness :
  fst (get_storage_details Phone.World (Phone.run Phone.without_df) Phone.candidates [])
  = inr [ mkDetails "Internal Storage" "/storage/emulated/0" "N/A" "N/A" "N/A" "N/A";
          mkDetails "SD Card" "/storage/1A2B-3C4D" "N/A" "N/A" "N/A" "N/A" ].
Proof.
  apply (df_failure_degrades Phone.World (Phone.run Phone.without_df) Phone.candidates
           [] ["adb shell df -k"] "" "error: no devices/emulators found").
  reflexivity.
Defined.

Lemma all_or_nothing_witness :
  exists ds,
    fst (get_storage_details Phone.World (Phone.run (Phone.with_df Phone.df_two_names))
           Phone.candidates []) = inr ds
    /\ map (fun d => (name d, path d)) ds = Phone.candidates.
Proof.
  destruct (all_or_nothing Phone.World (Phone.run (Phone.with_df Phone.df_two_names))
              Phone.candidates []) as [Hreturned Hreturns].
  destruct Hreturns as [ds Hds].
  - intros line token z Hline Htoken Hz.
    assert (Hbound : Z.abs z < 2 ^ 22); [| lia].
    vm_compute in Hline.
    repeat (destruct Hline as [<- | Hline]; [
      vm_compute in Htoken;
      repeat (destruct Htoken as [<- | Htoken];
              [vm_compute in Hz; first [discriminate Hz | injection Hz as <-; reflexivity] |]);
      destruct Htoken |]).
    destruct Hline.
  - exists ds. split; [exact Hds | exact (proj1 (Hreturned ds Hds))].
Defined.

(** ** Which row is chosen *)

Lemma reads_as_line_row (line : string) (row : DfRow) :
  reads_as line row -> line_row (mountPoint row) line = Some row.
Proof.
  intros H. apply line_row_reads. split; [exact H | left; reflexivity].
Qed.

(** C7, as stated, fails. A matched row with a total of 0 and a used
    column of 321 digits makes [used_kblocks / (1024**2)] leave the range
    of the floats: the division raises [OverflowError], which no [except]
    clause accepts, and no percentage is written. *)
Lemma zero_total_can_fault :
  let line := "tmpfs 0 " ++ Phone.huge ++ " 0 0% /mnt/empty" in
  let d := new_details "Empty" "/mnt/empty" in
  line_row "/mnt/empty" line
  = Some (mkDfRow "/mnt/empty" 0 (10 ^ 320) 0)
  /\ scan_df_lines "/mnt/empty" [line] d = (d, inl OverflowError).
Proof. cbv zeta. split; vm_compute; reflexivity. Qed.

(** C7, amended. For the row the loop stops at, when its three numbers
    are below [2 ** 1000] in absolute value: the loop ends normally; with
    a total of 0 the percentage field is ["0.00%"], no division being
    made; with a positive total it is the float [used / total], times
    100, with two decimals and a percent sign: 14.37 for 9200000 used of
    64000000, 0.03 for 2 used of 8000. *)
Theorem percentage_guard
  (path : string) (df_lines : list string) (details : Details) (row : DfRow) :
  first_answering path df_lines row ->
  in_range row ->
  snd (scan_df_lines path df_lines details) = inr true
  /\ (totalKB row = 0 ->
      percentage_used (fst (scan_df_lines path df_lines details)) = "0.00%")
  /\ (0 < totalKB row ->
      percentage_used (fst (scan_df_lines path df_lines details))
      = Float64.format_2f
          (Float64.mul (quotient (usedKB row) (totalKB row)) (Float64.of_Z 100))
        ++ "%")
  /\ Float64.format_2f (Float64.mul (quotient 9200000 64000000) (Float64.of_Z 100))
     = "14.37"
  /\ Float64.format_2f (Float64.mul (quotient 2 8000) (Float64.of_Z 100)) = "0.03".
Proof.
  intros Hrow Hrange. apply matching_row_first_answering in Hrow.
  rewrite (scan_df_lines_in_range _ _ _ _ Hrow Hrange). cbn [fst snd].
  split; [reflexivity |]. unfold render, percentage_of. cbn [percentage_used].
  split; [| split; [| split; vm_compute; reflexivity]]; intros Htotal.
  - rewrite Htotal. reflexivity.
  - apply Z.gtb_lt in Htotal. rewrite Htotal. reflexivity.
Qed.

Lemma first_answering_single (path line : string) (row : DfRow) :
  line_row path line = Some row -> first_answering path [line] row.
Proof.
  intros H. apply matching_row_first_answering. cbn [matching_row]. rewrite H.
  reflexivity.
Qed.

Lemma in_range_small (row : DfRow) :
  (Z.abs (totalKB row) <? 2 ^ 1000) && (Z.abs (usedKB row) <? 2 ^ 1000)
  && (Z.abs (availableKB row) <? 2 ^ 1000) = true ->
  in_range row.
Proof.
  intros H. apply andb_true_iff in H. destruct H as [H Ha].
  apply andb_true_iff in H. destruct H as [Ht Hu].
  repeat split; apply Z.ltb_lt; assumption.
Qed.

Lemma percentage_guard_witness :
  percentage_used
    (fst (scan_df_lines "/sdcard" ["/dev/fuse 64000000 9200000 54800000 15% /sdcard"]
            (new_details "Internal Storage" "/sdcard"))) = "14.37%"
  /\ percentage_used
       (fst (scan_df_lines "/mnt/empty" ["tmpfs 0 0 0 0% /mnt/empty"]
               (new_details "Empty" "/mnt/empty"))) = "0.00%".
Proof.
  split.
  - assert (Hfirst : first_answering "/sdcard"
                       ["/dev/fuse 64000000 9200000 54800000 15% /sdcard"]
                       (mkDfRow "/sdcard" 64000000 9200000 54800000)).
    { apply first_answering_single. vm_compute. reflexivity. }
    assert (Hrange : in_range (mkDfRow "/sdcard" 64000000 9200000 54800000)).
    { apply in_range_small. reflexivity. }
    rewrite (proj1 (proj2 (proj2 (percentage_guard _ _
                                    (new_details "Internal Storage" "/sdcard")
                                    _ Hfirst Hrange))) eq_refl).
    vm_compute. reflexivity.
  - assert (Hfirst : first_answering "/mnt/empty" ["tmpfs 0 0 0 0% /mnt/empty"]
                       (mkDfRow "/mnt/empty" 0 0 0)).
    { apply first_answering_single. vm_compute. reflexivity. }
    assert (Hrange : in_range (mkDfRow "/mnt/empty" 0 0 0)).
    { apply in_range_small. reflexivity. }
    exact (proj1 (proj2 (percentage_guard _ _ (new_details "Empty" "/mnt/empty")
                           _ Hfirst Hrange)) eq_refl).
Defined.

(** C1, as stated, fails. With the internal volume listed first as
    [/storage/emulated] and then as [/sdcard], the candidate [/sdcard] has
    an exact-match row (the third line) and an alias-only row (the second
    line); the loop writes the alias row, which comes first. *)
Lemma exact_match_not_preferred :
  let d := new_details "Internal Storage" "/sdcard" in
  let alias := mkDfRow "/storage/emulated" 1048576 524288 524288 in
  let exact := mkDfRow "/sdcard" 2097152 524288 1572864 in
  line_row "/sdcard" (nth 2 Phone.df_two_names "") = Some exact
  /\ line_row "/sdcard" (nth 1 Phone.df_two_names "") = Some alias
  /\ scan_df_lines "/sdcard" Phone.df_two_names d = (render alias d, inr true)
  /\ total_gb (render alias d) = "1.00 GB"
  /\ total_gb (render exact d) = "2.00 GB".
Proof. vm_compute. repeat split. Qed.

(** C1, amended. The row chosen is the first one, in the order of the
    [df] output, among the lines that read as a row (six tokens or more,
    integers in second, third and fourth place) whose mount point is the
    path or, the path being a spelling of the internal volume, another
    spelling of it. An exact-match row is therefore chosen when no such
    row precedes it. The fields are written from that row when its
    numbers are below [2 ** 1000] in absolute value. *)
Theorem first_answering_row_chosen
  (path : string) (pre post : list string) (line : string) (row : DfRow) (d : Details) :
  reads_as line row ->
  mountPoint row = path
  \/ (In path ["/storage/emulated/0"; "/storage/emulated"; "/sdcard"]
      /\ In (mountPoint row) ["/storage/emulated/0"; "/storage/emulated"; "/sdcard"]) ->
  (forall l r,
     In l pre -> reads_as l r ->
     mountPoint r <> path
     /\ ~ (In path ["/storage/emulated/0"; "/storage/emulated"; "/sdcard"]
           /\ In (mountPoint r) ["/storage/emulated/0"; "/storage/emulated"; "/sdcard"])) ->
  in_range row ->
  scan_df_lines path (pre ++ line :: post) d = (render row d, inr true).
Proof.
  intros Hreads Hans Hpre Hrange.
  apply scan_df_lines_in_range; [| exact Hrange].
  apply matching_row_first_answering. exists pre, line, post.
  split; [reflexivity |]. split; [exact Hreads |]. split; [exact Hans |].
  intros l r Hin Hr Ha. destruct (Hpre l r Hin Hr) as [Hne Hno].
  destruct Ha as [Heq | Halias]; [exact (Hne Heq) | exact (Hno Halias)].
Qed.

Lemma reads_as_computed (line : string) (row : DfRow) :
  line_row (mountPoint row) line = Some row -> reads_as line row.
Proof. intros H. apply line_row_reads in H. exact (proj1 H). Qed.

Lemma first_answering_row_chosen_witness :
  scan_df_lines "/sdcard"
    (["Filesystem 1K-blocks Used Available Use% Mounted on";
      "/dev/block/dm-4 4194304 1048576 3145728 25% /data"]
       ++ "tmpfs 1048576 524288 524288 50% /storage/emulated"
       :: ["/dev/fuse 2097152 524288 1572864 25% /sdcard"])
    (new_details "Internal Storage" "/sdcard")
  = (render (mkDfRow "/storage/emulated" 1048576 524288 524288)
       (new_details "Internal Storage" "/sdcard"), inr true).
Proof.
  apply first_answering_row_chosen.
  - apply reads_as_computed. vm_compute. reflexivity.
  - right. cbn. auto.
  - intros l r [<- | [<- | []]] Hr.
    + exfalso. destruct Hr as (fs & t & u & a & rest & Hs & _ & _ & Ht & _).
      vm_compute in Hs. injection Hs as <- <- <- <- <-.
      vm_compute in Ht. discriminate Ht.
    + assert (Hrow : r = mkDfRow "/data" 4194304 1048576 3145728).
      { apply (reads_as_unique _ _ _ Hr). apply reads_as_computed.
        vm_compute. reflexivity. }
      subst r. cbn. split; [discriminate |]. intros [_ H].
      repeat (destruct H as [H | H]; [discriminate H |]). exact H.
  - apply in_range_small. reflexivity.
Defined.

(** C5, as stated, fails. The report below has a valid [/sdcard] row and
    no [/storage/emulated/0] row, yet the candidate [/storage/emulated/0]
    gets the [/storage/emulated] row, which comes first. *)
Lemma alias_resolution_not_the_sdcard_row :
  let d := new_details "Internal Storage" "/storage/emulated/0" in
  let other := mkDfRow "/storage/emulated" 1048576 524288 524288 in
  let sdcard := mkDfRow "/sdcard" 2097152 524288 1572864 in
  line_row "/storage/emulated/0" (nth 2 Phone.df_two_names "") = Some sdcard
  /\ Forall (fun line => last (PyStr.split line) "" <> "/storage/emulated/0")
       Phone.df_two_names
  /\ scan_df_lines "/storage/emulated/0" Phone.df_two_names d = (render other d, inr true)
  /\ render other d <> render sdcard d.
Proof.
  cbv zeta. split; [vm_compute; reflexivity |].
  split; [repeat constructor; vm_compute; discriminate |].
  split; [vm_compute; reflexivity |].
  vm_compute. discriminate.
Qed.

(** C5, amended. When the report has a line that reads as a row with
    mount point [/sdcard], resolving [/storage/emulated/0] stops at the
    first line that reads as a row whose mount point is one of
    [/storage/emulated/0], [/storage/emulated] and [/sdcard] (the
    [/sdcard] row itself when no such row precedes it), and writes the
    fields from that row when its numbers are below [2 ** 1000] in
    absolute value. *)
Theorem alias_resolution (df_lines : list string) (d : Details) :
  (exists line row,
     In line df_lines /\ reads_as line row /\ mountPoint row = "/sdcard") ->
  exists pre line post row,
    df_lines = (pre ++ line :: post)%list
    /\ reads_as line row
    /\ In (mountPoint row) ["/storage/emulated/0"; "/storage/emulated"; "/sdcard"]
    /\ (forall l r,
          In l pre -> reads_as l r ->
          ~ In (mountPoint r) ["/storage/emulated/0"; "/storage/emulated"; "/sdcard"])
    /\ (in_range row ->
        scan_df_lines "/storage/emulated/0" df_lines d = (render row d, inr true)).
Proof.
  intros (line0 & row0 & Hin & Hreads & Hmount).
  assert (Hpath : In "/storage/emulated/0" internal_aliases) by (left; reflexivity).
  assert (Hline0 : line_row "/storage/emulated/0" line0 = Some row0).
  { apply line_row_reads. split; [exact Hreads |]. right. split; [exact Hpath |].
    rewrite Hmount. cbn. auto. }
  assert (Hsome : exists row, matching_row "/storage/emulated/0" df_lines = Some row).
  { clear Hreads Hmount. induction df_lines as [| l rest IH]; [destruct Hin |].
    cbn [matching_row]. destruct (line_row "/storage/emulated/0" l) as [r |] eqn:Hl.
    - exists r. reflexivity.
    - destruct Hin as [-> | Hin]; [congruence | exact (IH Hin)]. }
  destruct Hsome as [row Hrow].
  destruct (proj1 (matching_row_first_answering _ _ _) Hrow)
    as (pre & line & post & -> & Hr & Ha & Hpre).
  assert (Halias : forall mp, answers "/storage/emulated/0" mp -> In mp internal_aliases).
  { intros mp [-> | [_ H]]; [exact Hpath | exact H]. }
  exists pre, line, post, row.
  split; [reflexivity |]. split; [exact Hr |]. split; [exact (Halias _ Ha) |].
  split.
  - intros l r Hl Hlr Hmp. apply (Hpre l r Hl Hlr). right. split; assumption.
  - intros Hrange. apply scan_df_lines_in_range; assumption.
Qed.

Lemma alias_resolution_witness :
  exists pre line post row,
    ["Filesystem 1K-blocks Used Available Use% Mounted on";
     "/dev/block/dm-4 4194304 1048576 3145728 25% /data";
     "/dev/fuse 2097152 524288 1572864 25% /sdcard"]
    = (pre ++ line :: post)%list
    /\ reads_as line row
    /\ In (mountPoint row) ["/storage/emulated/0"; "/storage/emulated"; "/sdcard"].
Proof.
  destruct (alias_resolution
              ["Filesystem 1K-blocks Used Available Use% Mounted on";
               "/dev/block/dm-4 4194304 1048576 3145728 25% /data";
               "/dev/fuse 2097152 524288 1572864 25% /sdcard"]
              (new_details "Internal Storage" "/storage/emulated/0"))
    as (pre & line & post & row & Hsplit & Hreads & Halias & _).
  - exists "/dev/fuse 2097152 524288 1572864 25% /sdcard",
           (mkDfRow "/sdcard" 2097152 524288 1572864).
    split; [cbn; auto |]. split; [| reflexivity].
    apply reads_as_computed. vm_compute. reflexivity.
  - exists pre, line, post, row. auto.
Defined.

(** C3, as stated, fails. A line with one column in front of the standard
    six has its numbers read from the wrong tokens: with a name in second
    place the line is given up ([int] raises), with a number there the
    three values are shifted by one column. *)
Lemma leading_column_not_tolerated :
  let d := new_details "Internal Storage" "/sdcard" in
  PyStr.split "overlay dev 100 40 55 40% /sdcard"
  = ["overlay"; "dev"; "100"; "40"; "55"; "40%"; "/sdcard"]
  /\ scan_df_lines "/sdcard" ["overlay dev 100 40 55 40% /sdcard"] d = (d, inr false)
  /\ PyStr.split "0 7 100 40 55 40% /sdcard"
     = ["0"; "7"; "100"; "40"; "55"; "40%"; "/sdcard"]
  /\ line_row "/sdcard" "0 7 100 40 55 40% /sdcard" = Some (mkDfRow "/sdcard" 7 100 40)
  /\ line_row "/sdcard" "0 7 100 40 55 40% /sdcard" <> Some (mkDfRow "/sdcard" 100 40 55).
Proof.
  cbv zeta. repeat split; try (vm_compute; reflexivity).
  vm_compute. discriminate.
Qed.

(** C3, amended. On a line of six tokens or more the mount point is the
    last token and the total, used and available values are the integers
    of the second, third and fourth tokens counted from the left; tokens
    in excess of six are tolerated after the fourth only. When the three
    integers are below [2 ** 1000] in absolute value the fields are
    written from them. The line ["dev 100 40 55 40% /sdcard"] gives mount
    point ["/sdcard"] and the values 100, 40 and 55. *)
Theorem df_columns_from_the_left
  (line fs t u a : string) (rest : list string) (total used available : Z)
  (d : Details) :
  PyStr.split line = fs :: t :: u :: a :: rest ->
  (2 <= List.length rest)%nat ->
  PyStr.py_int t = Some total ->
  PyStr.py_int u = Some used ->
  PyStr.py_int a = Some available ->
  Z.abs total < 2 ^ 1000 ->
  Z.abs used < 2 ^ 1000 ->
  Z.abs available < 2 ^ 1000 ->
  line_row (last rest "") line = Some (mkDfRow (last rest "") total used available)
  /\ scan_df_lines (last rest "") [line] d
     = (render (mkDfRow (last rest "") total used available) d, inr true).
Proof.
  intros Hsplit Hlen Ht Hu Ha Rt Ru Ra.
  assert (Hrow : line_row (last rest "") line
                 = Some (mkDfRow (last rest "") total used available)).
  { apply (reads_as_line_row line (mkDfRow (last rest "") total used available)).
    exists fs, t, u, a, rest. repeat split; assumption. }
  split; [exact Hrow |].
  apply scan_df_lines_in_range.
  - cbn [matching_row]. rewrite Hrow. reflexivity.
  - repeat split; assumption.
Qed.

Lemma df_columns_from_the_left_witness :
  line_row "/sdcard" "dev 100 40 55 40% /sdcard" = Some (mkDfRow "/sdcard" 100 40 55)
  /\ scan_df_lines "/sdcard" ["dev 100 40 55 40% /sdcard"]
       (new_details "Internal Storage" "/sdcard")
     = (render (mkDfRow "/sdcard" 100 40 55)
          (new_details "Internal Storage" "/sdcard"), inr true).
Proof.
  apply (df_columns_from_the_left "dev 100 40 55 40% /sdcard"
           "dev" "100" "40" "55" ["40%"; "/sdcard"] 100 40 55).
  - vm_compute. reflexivity.
  - cbn [List.length]. lia.
  - vm_compute. reflexivity.
  - vm_compute. reflexivity.
  - vm_compute. reflexivity.
  - reflexivity.
  - reflexivity.
  - reflexivity.
Defined.

(** ** Size strings *)

Lemma chars_app (s1 s2 : string) :
  PyStr.chars (s1 ++ s2) = (PyStr.chars s1 ++ PyStr.chars s2)%list.
Proof.
  unfold PyStr.chars. induction s1 as [| c s1 IH]; [reflexivity |].
  cbn [append list_ascii_of_string app]. rewrite IH. reflexivity.
Qed.

Lemma last_char_snoc (s : string) (c : ascii) :
  PyStr.last_char (s ++ String c EmptyString) = Some c.
Proof.
  unfold PyStr.last_char. rewrite chars_app.
  change (PyStr.chars (String c "")) with [c]. rewrite rev_unit. reflexivity.
Qed.

Lemma drop_last_snoc (s : string) (c : ascii) :
  PyStr.drop_last (s ++ String c EmptyString) = s.
Proof.
  unfold PyStr.drop_last. rewrite chars_app.
  change (PyStr.chars (String c "")) with [c]. rewrite removelast_last.
  apply string_of_list_ascii_of_string.
Qed.

Lemma one_letter_eqb (a b : ascii) :
  (String a EmptyString =? String b EmptyString)%string = Ascii.eqb a b.
Proof. cbn [String.eqb]. destruct (Ascii.eqb a b); reflexivity. Qed.

(** The multiplier chosen for a one-letter unit. *)
Lemma size_bytes_of_letter (c : ascii) (v : Float64.t) :
  size_bytes_of (String c EmptyString) v =
  if Ascii.eqb c "G" then Float64.mul v (Float64.of_Z (2 ^ 30))
  else if Ascii.eqb c "M" then Float64.mul v (Float64.of_Z (2 ^ 20))
  else if Ascii.eqb c "K" then Float64.mul v (Float64.of_Z (2 ^ 10))
  else if Ascii.eqb c "B" then v
  else Float64.of_Z 0.
Proof.
  unfold size_bytes_of. rewrite !one_letter_eqb.
  change (String c "" =? "")%string with false. rewrite orb_false_r.
  reflexivity.
Qed.

(** C2. For a size string made of a number that [float] accepts and an
    optional last letter: the letter G, M, K or B, in either case,
    multiplies the number by 2^30, 2^20, 2^10 or 1, any other letter
    gives 0 bytes, and no letter gives the number itself. So ["1.5G"] is
    1.5 * 2^30 bytes, ["512K"] is 512 * 2^10 bytes, ["10"] is 10 bytes,
    and the sizes ["10M"], ["1G"], ["500K"] sort, largest first, as 1G,
    10M, 500K. *)
Theorem size_unit_normalization (number : string) (c : ascii) (v : Float64.t) :
  Float64.py_float number = Some v ->
  has_unit number = false ->
  PyStr.isalpha c = true ->
  parse_size number = Some v
  /\ parse_size (number ++ String c EmptyString)
     = Some (if Ascii.eqb (PyStr.upper c) "G" then Float64.mul v (Float64.of_Z (2 ^ 30))
             else if Ascii.eqb (PyStr.upper c) "M" then Float64.mul v (Float64.of_Z (2 ^ 20))
             else if Ascii.eqb (PyStr.upper c) "K" then Float64.mul v (Float64.of_Z (2 ^ 10))
             else if Ascii.eqb (PyStr.upper c) "B" then v
             else Float64.of_Z 0)
  /\ (exists b, parse_size "1.5G" = Some (Float64.Fin b)
                /\ (b == (3 # 2) * inject_Z (2 ^ 30))%Q)
  /\ (exists b, parse_size "512K" = Some (Float64.Fin b)
                /\ (b == 512 * inject_Z (2 ^ 10))%Q)
  /\ (exists b, parse_size "10" = Some (Float64.Fin b) /\ (b == 10)%Q)
  /\ map snd (sort_desc (sized "10M" ++ sized "1G" ++ sized "500K"))
     = ["1G"; "10M"; "500K"].
Proof.
  intros Hnum Hnone Halpha. split; [| split].
  - unfold parse_size, size_val_of, unit_of. rewrite Hnone, Hnum. reflexivity.
  - unfold parse_size, size_val_of, unit_of, has_unit.
    rewrite last_char_snoc, Halpha, drop_last_snoc, Hnum.
    rewrite size_bytes_of_letter. reflexivity.
  - repeat split; try (eexists; split; [vm_compute; reflexivity | reflexivity]).
Qed.

Lemma size_unit_normalization_witness :
  parse_size "2.5" = Some (Float64.Fin (5 # 2))
  /\ parse_size ("2.5" ++ "m") = Some (Float64.Fin 2621440).
Proof.
  destruct (size_unit_normalization "2.5" "m" (Float64.Fin (5 # 2))) as (H0 & H1 & _).
  - vm_compute. reflexivity.
  - reflexivity.
  - reflexivity.
  - split; [exact H0 |]. rewrite H1. vm_compute. reflexivity.
Defined.

(** ** The order of the floats *)

Ltac float_cases x := destruct x as [? | | [|] |].

Ltac float_order :=
  cbn [Float64.ltb Float64.leb Float64.value Float64.is_nan negb andb];
  rewrite ?negb_involutive.



Lemma leb_ltb_false (x y : Float64.t) :
  Float64.leb y x = true -> Float64.ltb x y = false.
Proof.
  float_cases x; float_cases y; float_order;
    try (intros; discriminate); try (intros; reflexivity);
    intros H; apply negb_false_iff; exact H.
Qed.

Lemma leb_trans (x y z : Float64.t) :
  Float64.leb x y = true -> Float64.leb y z = true -> Float64.leb x z = true.
Proof.
  float_cases x; float_cases y; float_cases z; float_order;
    try (intros; discriminate); try (intros; reflexivity);
    intros H1 H2; apply Qle_bool_iff in H1, H2;
    apply Qle_bool_iff; exact (Qle_trans _ _ _ H1 H2).
Qed.

Lemma leb_not_nan (x y : Float64.t) :
  Float64.leb x y = true -> Float64.is_nan x = false /\ Float64.is_nan y = false.
Proof.
  float_cases x; float_cases y; cbn [Float64.leb Float64.is_nan];
    intros H; auto; discriminate.
Qed.

(** ** Ranking *)

Lemma insert_desc_perm (x : Float64.t * string) (l : list (Float64.t * string)) :
  Permutation (insert_desc x l) (x :: l).
Proof.
  induction l as [| y r IH]; cbn [insert_desc]; [apply Permutation_refl |].
  destruct (Float64.ltb (fst x) (fst y)); [| apply Permutation_refl].
  apply Permutation_trans with (y :: x :: r).
  - apply perm_skip. exact IH.
  - apply perm_swap.
Qed.

Lemma sort_desc_perm (l : list (Float64.t * string)) : Permutation (sort_desc l) l.
Proof.
  induction l as [| x r IH]; cbn [sort_desc]; [apply perm_nil |].
  apply Permutation_trans with (x :: sort_desc r).
  - apply insert_desc_perm.
  - apply perm_skip. exact IH.
Qed.




Lemma top_of_nil (count : Z) : top_of [] count = [].
Proof.
  unfold top_of, slice_to. cbn [sort_desc].
  destruct (count <? 0); apply firstn_nil.
Qed.

Lemma top_of_nonneg (l : list (Float64.t * string)) (count : Z) :
  0 <= count -> top_of l count = firstn (Z.to_nat count) (sort_desc l).
Proof.
  intros Hc. unfold top_of, slice_to.
  destruct (Z.ltb_spec count 0); [lia | reflexivity].
Qed.

(** What a pair appended to [folder_sizes_raw] was made of: a [du] answer
    of two fields whose first field, stripped, has a numeric part that
    [float] accepts. *)
Lemma du_entry_parsed (item_path stdout_du : string) (success_du : bool)
  (e : Float64.t * string) :
  du_entry item_path success_du stdout_du = Some e ->
  exists p0 p1 size_val,
    success_du = true
    /\ PyStr.split_on TAB (PyStr.strip stdout_du) = [p0; p1]
    /\ size_val_of (PyStr.strip p0) = Some size_val
    /\ e = (size_bytes_of (unit_of (PyStr.strip p0)) size_val,
            PyStr.strip p0 ++ " " ++ item_path).
Proof.
  unfold du_entry. destruct success_du; cbn [andb]; [| discriminate].
  destruct (negb (stdout_du =? "")%string); [| discriminate].
  cbv zeta.
  destruct (PyStr.split_on TAB (PyStr.strip stdout_du)) as [| p0 [| p1 [| p2 ps]]];
    try discriminate.
  unfold parse_size.
  destruct (size_val_of (PyStr.strip p0)) as [size_val |] eqn:Hval; [| discriminate].
  intros [= <-]. exists p0, p1, size_val. repeat split; try reflexivity; exact Hval.
Qed.

Section RankingProperties.

Variable World : Type.
Variable subprocess_run : string -> World -> run_outcome * World.

(** The result is the top of the sorted parsed entries, also on the two
    early returns. *)
Lemma get_top_large_folders_ranked (path : string) (count : Z) (w : World) :
  fst (get_top_large_folders World subprocess_run path count w)
  = map snd (top_of (parsed_entries World subprocess_run path w) count).
Proof.
  unfold get_top_large_folders, parsed_entries.
  destruct (run_adb_command World subprocess_run (ls_command path) w)
    as [[[success_ls stdout_ls] stderr_ls] w1].
  destruct success_ls; cbn [negb].
  - destruct (potential_items path stdout_ls) as [| item items] eqn:Hitems.
    + cbn [measure_items fst]. rewrite top_of_nil. reflexivity.
    + destruct (measure_items World subprocess_run (item :: items) w1)
        as [raw w2]. reflexivity.
  - cbn [fst]. rewrite top_of_nil. reflexivity.
Qed.

(** Every pair collected by the [du] loop comes from the [du] call made
    for one of the child paths. *)
Lemma measure_items_source (items : list string) (w : World) (e : Float64.t * string) :
  In e (fst (measure_items World subprocess_run items w)) ->
  exists item_path w' stdout_du stderr_du w'',
    In item_path items
    /\ run_adb_command World subprocess_run (du_command item_path) w'
       = ((true, stdout_du, stderr_du), w'')
    /\ du_entry item_path true stdout_du = Some e.
Proof.
  revert w. induction items as [| item rest IH]; intros w; [intros [] |].
  cbn [measure_items].
  destruct (run_adb_command World subprocess_run (du_command item) w)
    as [[[success_du stdout_du] stderr_du] w1] eqn:Hrun.
  specialize (IH w1).
  destruct (measure_items World subprocess_run rest w1) as [raw w2].
  cbn [fst] in *.
  assert (Hrest : In e raw ->
                  exists item_path w' stdout_du stderr_du w'',
                    In item_path (item :: rest)
                    /\ run_adb_command World subprocess_run (du_command item_path) w'
                       = ((true, stdout_du, stderr_du), w'')
                    /\ du_entry item_path true stdout_du = Some e).
  { intros Hin. destruct (IH Hin) as (ip & w' & so & se & w'' & Hip & Hr & He).
    exists ip, w', so, se, w''. split; [right; exact Hip | split; assumption]. }
  destruct (du_entry item success_du stdout_du) as [e0 |] eqn:Hentry; [| exact Hrest].
  intros [<- | Hin]; [| exact (Hrest Hin)].
  destruct (du_entry_parsed _ _ _ _ Hentry) as (_ & _ & _ & -> & _).
  exists item, w, stdout_du, stderr_du, w1.
  split; [left; reflexivity | split; [exact Hrun | exact Hentry]].
Qed.

Lemma parsed_entries_source (path : string) (w : World) (e : Float64.t * string) :
  In e (parsed_entries World subprocess_run path w) ->
  exists stdout_ls stderr_ls w1 item_path w' stdout_du stderr_du w'',
    run_adb_command World subprocess_run (ls_command path) w
    = ((true, stdout_ls, stderr_ls), w1)
    /\ In item_path (potential_items path stdout_ls)
    /\ run_adb_command World subprocess_run (du_command item_path) w'
       = ((true, stdout_du, stderr_du), w'')
    /\ du_entry item_path true stdout_du = Some e.
Proof.
  unfold parsed_entries.
  destruct (run_adb_command World subprocess_run (ls_command path) w)
    as [[[success_ls stdout_ls] stderr_ls] w1].
  destruct success_ls; cbn [negb]; [| intros []].
  intros Hin.
  destruct (measure_items_source _ _ _ Hin) as (ip & w' & so & se & w'' & Hip & Hr & He).
  exists stdout_ls, stderr_ls, w1, ip, w', so, se, w''. auto.
Qed.


End RankingProperties.



(** C8. The listing of [ls -aF] names the two directory links [./] and
    [../]; they pass the test against ["."] and [".."], one [du] call is
    made for each, and both are ranked. *)
Theorem dot_entries_are_measured :
  potential_items "/sdcard" ("./" ++ LF ++ "../" ++ LF ++ "DCIM/" ++ LF)
  = ["/sdcard/./"; "/sdcard/../"; "/sdcard/DCIM/"]
  /\ get_top_large_folders Phone.World (Phone.run Phone.listing) "/sdcard" 5 []
     = (["25G /sdcard/../"; "12G /sdcard/./"; "3.5G /sdcard/DCIM/"],
        [ls_command "/sdcard"; du_command "/sdcard/./";
         du_command "/sdcard/../"; du_command "/sdcard/DCIM/"]).
Proof. split; vm_compute; reflexivity. Qed.

(** The test of line 181 does drop the bare names. *)
Lemma bare_dot_entries_dropped (path : string) :
  potential_items path ("." ++ LF ++ ".." ++ LF) = [].
Proof. reflexivity. Qed.
(** ** Substring search *)

Lemma str_chars (s : string) : PyStr.str (PyStr.chars s) = s.
Proof. apply string_of_list_ascii_of_string. Qed.

Lemma chars_str (l : list ascii) : PyStr.chars (PyStr.str l) = l.
Proof. apply list_ascii_of_string_of_list_ascii. Qed.

Lemma str_app (l1 l2 : list ascii) :
  PyStr.str (l1 ++ l2) = PyStr.str l1 ++ PyStr.str l2.
Proof.
  rewrite <- (str_chars (PyStr.str l1 ++ PyStr.str l2)).
  rewrite chars_app, !chars_str. reflexivity.
Qed.

Lemma startswith_empty (s : string) : PyStr.startswith s "" = true.
Proof. destruct s; reflexivity. Qed.

Lemma startswith_split (s p : string) :
  PyStr.startswith s p = true -> s = p ++ PyStr.drop (String.length p) s.
Proof.
  revert s. induction p as [| a p IH]; intros s H; [reflexivity |].
  destruct s as [| b s]; [discriminate H |].
  cbn [PyStr.startswith] in H. apply andb_true_iff in H. destruct H as [Hab Hrest].
  apply Ascii.eqb_eq in Hab. subst b.
  cbn [String.length PyStr.drop append]. f_equal. apply IH. exact Hrest.
Qed.

Lemma startswith_app (p r : string) : PyStr.startswith (p ++ r) p = true.
Proof.
  induction p as [| a p IH]; [cbn [append]; destruct r; reflexivity |].
  cbn [append PyStr.startswith]. rewrite Ascii.eqb_refl. exact IH.
Qed.

(** The two parts [find_sep] returns do surround a separator. *)
Lemma find_sep_parts (sep s before after : string) :
  PyStr.find_sep sep s = Some (before, after) -> s = before ++ sep ++ after.
Proof.
  revert before. induction s as [| c s IH]; intros before; cbn [PyStr.find_sep].
  - destruct (PyStr.startswith "" sep) eqn:Hp; [| discriminate].
    intros [= <- <-]. apply (startswith_split _ _ Hp).
  - destruct (PyStr.startswith (String c s) sep) eqn:Hp.
    + intros [= <- <-]. apply (startswith_split _ _ Hp).
    + destruct (PyStr.find_sep sep s) as [[b a] |]; [| discriminate].
      intros [= <- <-]. cbn [append]. f_equal. apply IH. reflexivity.
Qed.

(** Where [in] finds the separator, [split] finds it too. *)
Lemma contains_find_sep (sep s : string) :
  PyStr.contains sep s = true ->
  exists before after, PyStr.find_sep sep s = Some (before, after).
Proof.
  induction s as [| c s IH]; cbn [PyStr.contains PyStr.find_sep]; intros H.
  - rewrite orb_false_r in H. rewrite H. eauto.
  - destruct (PyStr.startswith (String c s) sep); [eauto |].
    cbn [orb] in H. destruct (IH H) as (b & a & ->). eauto.
Qed.

Lemma contains_app (p a b : string) : PyStr.contains p (a ++ p ++ b) = true.
Proof.
  induction a as [| c a IH]; cbn [append].
  - destruct (p ++ b) eqn:E; cbn [PyStr.contains]; rewrite <- E;
      rewrite startswith_app; reflexivity.
  - cbn [PyStr.contains]. rewrite IH. apply orb_true_r.
Qed.

(** A string that contains [c p] contains [p]. *)
Lemma contains_tail (c : ascii) (p s : string) :
  PyStr.contains (String c p) s = true -> PyStr.contains p s = true.
Proof.
  induction s as [| b s IH]; cbn [PyStr.contains]; intros H.
  - cbn in H. discriminate H.
  - apply orb_true_iff in H. destruct H as [H | H].
    + cbn [PyStr.startswith] in H. apply andb_true_iff in H.
      apply orb_true_iff. right.
      destruct s as [| b' s']; cbn [PyStr.contains].
      * destruct p; [reflexivity | cbn in H; destruct H; discriminate].
      * rewrite (proj2 H). reflexivity.
    + rewrite (IH H). apply orb_true_r.
Qed.

Lemma endswith_char (s : string) (c : ascii) :
  PyStr.endswith s (String c EmptyString) = true ->
  exists l, PyStr.chars s = (l ++ [c])%list.
Proof.
  unfold PyStr.endswith. change (PyStr.chars (String c "")) with [c].
  cbn [rev app PyStr.str string_of_list_ascii].
  destruct (rev (PyStr.chars s)) as [| b l] eqn:Hrev; [discriminate |].
  cbn [PyStr.str string_of_list_ascii PyStr.startswith].
  intros H. apply andb_true_iff in H. destruct H as [Hcb _].
  apply Ascii.eqb_eq in Hcb. subst b.
  exists (rev l). rewrite <- (rev_involutive (PyStr.chars s)), Hrev. reflexivity.
Qed.

Lemma endswith_snoc (s : string) (c : ascii) :
  PyStr.endswith (s ++ String c EmptyString) (String c EmptyString) = true.
Proof.
  unfold PyStr.endswith. rewrite chars_app.
  change (PyStr.chars (String c "")) with [c]. rewrite rev_unit.
  cbn [rev app PyStr.str string_of_list_ascii PyStr.startswith].
  rewrite Ascii.eqb_refl. apply startswith_empty.
Qed.

(** ** Property lines *)

(** X1. The [except ValueError] clause of the property loop is never
    entered: a line that passes the three tests of line 68 always splits
    in two at ["]: ["]. *)
Theorem read_prop_line_never_raises (line : string) :
  read_prop_line line <> Unpack_ValueError.
Proof.
  unfold read_prop_line.
  destruct (PyStr.startswith line "["); cbn [andb]; [| discriminate].
  destruct (PyStr.contains "]: [" line) eqn:Hin; cbn [andb]; [| discriminate].
  destruct (PyStr.endswith line "]"); [| discriminate].
  destruct (contains_find_sep _ _ Hin) as (before & after & Hsep).
  unfold PyStr.split_once. rewrite Hsep. discriminate.
Qed.

(** X2. A line read as a property is its key and its value in their
    brackets: nothing of the line is lost or added. *)
Theorem read_prop_line_rebuilds (line key value : string) :
  read_prop_line line = Entry key value ->
  line = "[" ++ key ++ "]: [" ++ value ++ "]".
Proof.
  unfold read_prop_line.
  destruct (PyStr.startswith line "[") eqn:Hstart; cbn [andb]; [| discriminate].
  destruct (PyStr.contains "]: [" line) eqn:Hin; cbn [andb]; [| discriminate].
  destruct (PyStr.endswith line "]") eqn:Hend; [| discriminate].
  destruct (contains_find_sep _ _ Hin) as (before & after & Hsep).
  unfold PyStr.split_once. rewrite Hsep. intros [= <- <-].
  apply find_sep_parts in Hsep. subst line.
  destruct before as [| b before'].
  { cbn in Hstart. discriminate Hstart. }
  cbn [append PyStr.startswith] in Hstart.
  apply andb_true_iff in Hstart. destruct Hstart as [Hb _].
  apply Ascii.eqb_eq in Hb. subst b.
  cbn [PyStr.drop_first PyStr.drop append]. do 2 f_equal.
  destruct (endswith_char _ _ Hend) as [l Hl].
  rewrite !chars_app in Hl.
  assert (Hafter : PyStr.chars after <> []).
  { intros Hnil. rewrite Hnil in Hl.
    change (PyStr.chars "]: [" ++ [])%list
      with (["]"; ":"; " "]%char ++ ["["%char])%list in Hl.
    rewrite app_assoc in Hl.
    apply app_inj_tail in Hl. destruct Hl as [_ Hl]. discriminate Hl. }
  destruct (exists_last Hafter) as (abody & az & Haz).
  rewrite Haz in Hl.
  rewrite !app_assoc in Hl. apply app_inj_tail in Hl. destruct Hl as [_ ->].
  f_equal. unfold PyStr.drop_last. rewrite Haz, removelast_last.
  rewrite <- (str_chars after) at 1. rewrite Haz, str_app. reflexivity.
Qed.

Lemma read_prop_line_rebuilds_witness :
  "[ro.product.model]: [Pixel 7]" = "[" ++ "ro.product.model" ++ "]: [" ++ "Pixel 7" ++ "]".
Proof.
  apply (read_prop_line_rebuilds "[ro.product.model]: [Pixel 7]").
  vm_compute. reflexivity.
Defined.

Lemma string_app_assoc (a b c : string) : (a ++ b) ++ c = a ++ b ++ c.
Proof.
  induction a as [| x a IH]; [reflexivity |].
  cbn [append]. rewrite IH. reflexivity.
Qed.

Lemma find_sep_here (sep s : string) :
  PyStr.startswith s sep = true ->
  PyStr.find_sep sep s = Some ("", PyStr.drop (String.length sep) s).
Proof. intros H. destruct s; cbn [PyStr.find_sep]; rewrite H; reflexivity. Qed.

Lemma find_sep_after_key (key rest : string) :
  PyStr.contains "]" key = false ->
  PyStr.find_sep "]: [" (key ++ "]: [" ++ rest) = Some (key, rest).
Proof.
  induction key as [| c key IH]; intros Hkey.
  - change ("" ++ "]: [" ++ rest) with ("]: [" ++ rest).
    rewrite find_sep_here by apply startswith_app. reflexivity.
  - cbn [PyStr.contains] in Hkey. apply orb_false_iff in Hkey.
    destruct Hkey as [Hc Hkey].
    cbn [PyStr.startswith] in Hc.
    rewrite startswith_empty, andb_true_r in Hc.
    cbn [append PyStr.find_sep PyStr.startswith]. rewrite Hc. cbn [andb].
    pose proof (IH Hkey) as Hrest. cbn [append] in Hrest.
    rewrite Hrest. reflexivity.
Qed.

(** X3. A key without a closing bracket, written with any value in the
    form [getprop] prints, is read back as that key and that value (the
    value may itself contain brackets and the separator). *)
Theorem read_prop_line_of_entry (key value : string) :
  PyStr.contains "]" key = false ->
  read_prop_line ("[" ++ key ++ "]: [" ++ value ++ "]") = Entry key value.
Proof.
  intros Hkey. unfold read_prop_line.
  assert (Hstart : PyStr.startswith ("[" ++ key ++ "]: [" ++ value ++ "]") "[" = true).
  { cbn [append PyStr.startswith]. rewrite startswith_empty. reflexivity. }
  assert (Hin : PyStr.contains "]: [" ("[" ++ key ++ "]: [" ++ value ++ "]") = true).
  { change ("[" ++ key ++ "]: [" ++ value ++ "]")
      with (("[" ++ key) ++ "]: [" ++ (value ++ "]")).
    apply contains_app. }
  assert (Hend : PyStr.endswith ("[" ++ key ++ "]: [" ++ value ++ "]") "]" = true).
  { replace ("[" ++ key ++ "]: [" ++ value ++ "]")
      with (("[" ++ key ++ "]: [" ++ value) ++ "]").
    - apply endswith_snoc.
    - rewrite !string_app_assoc. reflexivity. }
  rewrite Hstart, Hin, Hend. cbn [andb].
  unfold PyStr.split_once.
  assert (Hkey' : PyStr.contains "]" ("[" ++ key) = false).
  { cbn [append PyStr.contains PyStr.startswith]. rewrite Hkey. reflexivity. }
  change ("[" ++ key ++ "]: [" ++ value ++ "]")
    with (("[" ++ key) ++ "]: [" ++ (value ++ "]")).
  rewrite (find_sep_after_key ("[" ++ key) (value ++ "]") Hkey').
  cbn [append PyStr.drop_first PyStr.drop]. f_equal. apply drop_last_snoc.
Qed.

Lemma read_prop_line_of_entry_witness :
  read_prop_line ("[" ++ "net.hostname" ++ "]: [" ++ "a]: [b" ++ "]")
  = Entry "net.hostname" "a]: [b".
Proof. apply read_prop_line_of_entry. reflexivity. Defined.

(** ** The property dictionary *)

Lemma dict_set_keys {V : Type} (k : string) (v : V) (d : list (string * V)) :
  In k (map fst d) -> map fst (dict_set k v d) = map fst d.
Proof.
  induction d as [| [k' v'] r IH]; intros Hin; [destruct Hin |].
  cbn [dict_set]. destruct (String.eqb_spec k' k) as [-> | Hne]; [reflexivity |].
  cbn [map fst]. f_equal. apply IH.
  destruct Hin as [Heq | Hin]; [cbn in Heq; congruence | exact Hin].
Qed.

Lemma dict_get_set {V : Type} (k : string) (v : V) (d : list (string * V)) :
  dict_get k (dict_set k v d) = Some v.
Proof.
  induction d as [| [k' v'] r IH]; cbn [dict_set dict_get].
  - rewrite String.eqb_refl. reflexivity.
  - destruct (String.eqb_spec k' k) as [-> | Hne]; cbn [dict_get].
    + rewrite String.eqb_refl. reflexivity.
    + apply String.eqb_neq in Hne. rewrite Hne. exact IH.
Qed.

Lemma dict_get_set_other {V : Type} (k k0 : string) (v : V) (d : list (string * V)) :
  k <> k0 -> dict_get k0 (dict_set k v d) = dict_get k0 d.
Proof.
  intros Hne. induction d as [| [k' v'] r IH]; cbn [dict_set dict_get].
  - apply String.eqb_neq in Hne. rewrite Hne. reflexivity.
  - destruct (String.eqb_spec k' k) as [-> | Hk]; cbn [dict_get].
    + apply String.eqb_neq in Hne. rewrite Hne. reflexivity.
    + rewrite IH. reflexivity.
Qed.

Lemma member_In (k : string) (keys : list string) :
  member k keys = true -> In k keys.
Proof.
  unfold member. intros H. apply existsb_exists in H.
  destruct H as (k' & Hin & Heq). apply String.eqb_eq in Heq. subst k'. exact Hin.
Qed.

Lemma record_prop_keys (wanted : list string) (info : list (string * string)) (line : string) :
  map fst info = wanted -> map fst (record_prop wanted info line) = wanted.
Proof.
  intros Hkeys. unfold record_prop.
  destruct (read_prop_line line) as [key value | |]; try exact Hkeys.
  destruct (member key wanted) eqn:Hm; [| exact Hkeys].
  rewrite dict_set_keys; [exact Hkeys |].
  rewrite Hkeys. apply member_In. exact Hm.
Qed.

Lemma fold_record_prop_keys (wanted : list string) (lines : list string)
  (info : list (string * string)) :
  map fst info = wanted ->
  map fst (fold_left (record_prop wanted) lines info) = wanted.
Proof.
  revert info. induction lines as [| line rest IH]; intros info Hkeys; [exact Hkeys |].
  cbn [fold_left]. apply IH. apply record_prop_keys. exact Hkeys.
Qed.

(** X4. Whatever [getprop] prints, or when it fails, the dictionary of
    [get_device_info] has the four expected keys, each once and in the
    same order: no property of the device adds or removes a key. *)
Theorem device_info_keys (prop_output : option string) :
  map fst (device_info_of prop_output)
  = ["net.bt.name"; "ro.product.model"; "ro.product.manufacturer"; "net.hostname"].
Proof.
  unfold device_info_of. destruct prop_output as [out |]; [| reflexivity].
  destruct (out =? "")%string; [reflexivity |].
  apply (fold_record_prop_keys desired_props). reflexivity.
Qed.

(** A line that is no entry for [key] leaves the value of [key]. *)
Lemma record_prop_other (wanted : list string) (info : list (string * string))
  (line key : string) :
  (forall value, read_prop_line line <> Entry key value) ->
  dict_get key (record_prop wanted info line) = dict_get key info.
Proof.
  intros Hother. unfold record_prop.
  destruct (read_prop_line line) as [k v | |] eqn:Hline; try reflexivity.
  destruct (member k wanted); [| reflexivity].
  apply dict_get_set_other. intros ->. exact (Hother v eq_refl).
Qed.

Lemma fold_record_prop_other (wanted : list string) (lines : list string)
  (info : list (string * string)) (key : string) :
  (forall l value, In l lines -> read_prop_line l <> Entry key value) ->
  dict_get key (fold_left (record_prop wanted) lines info) = dict_get key info.
Proof.
  revert info. induction lines as [| line rest IH]; intros info Hother; [reflexivity |].
  cbn [fold_left]. rewrite IH.
  - apply record_prop_other. intros value. apply Hother. left. reflexivity.
  - intros l value Hin. apply Hother. right. exact Hin.
Qed.

(** X5. When a wanted property is printed more than once, the last line
    that defines it gives its value. *)
Theorem device_info_last_definition
  (out : string) (pre post : list string) (line key value : string) :
  PyStr.splitlines out = (pre ++ line :: post)%list ->
  read_prop_line line = Entry key value ->
  member key desired_props = true ->
  (forall l v, In l post -> read_prop_line l <> Entry key v) ->
  dict_get key (device_info_of (Some out)) = Some value.
Proof.
  intros Hlines Hline Hwanted Hpost. unfold device_info_of.
  destruct (String.eqb_spec out "") as [-> | _].
  { destruct pre; discriminate Hlines. }
  rewrite Hlines, fold_left_app. cbn [fold_left].
  rewrite (fold_record_prop_other _ _ _ _ Hpost).
  unfold record_prop. rewrite Hline, Hwanted. apply dict_get_set.
Qed.

Lemma device_info_last_definition_witness :
  dict_get "net.hostname"
    (device_info_of (Some ("[net.hostname]: [old]" ++ LF ++ "[net.hostname]: [new]"
                           ++ LF ++ "[ro.product.model]: [Pixel 7]")))
  = Some "new".
Proof.
  apply (device_info_last_definition _ ["[net.hostname]: [old]"]
           ["[ro.product.model]: [Pixel 7]"] "[net.hostname]: [new]").
  - vm_compute. reflexivity.
  - vm_compute. reflexivity.
  - reflexivity.
  - intros l v [<- | []]. vm_compute. discriminate.
Defined.

Lemma record_prop_source (wanted : list string) (info : list (string * string))
  (line key value : string) :
  dict_get key (record_prop wanted info line) = Some value ->
  dict_get key info = Some value \/ read_prop_line line = Entry key value.
Proof.
  unfold record_prop.
  destruct (read_prop_line line) as [k v | |] eqn:Hline; try (left; assumption).
  destruct (member k wanted); [| left; assumption].
  destruct (String.eqb_spec k key) as [-> | Hne].
  - rewrite dict_get_set. intros [= ->]. right. reflexivity.
  - rewrite (dict_get_set_other _ _ _ _ Hne). left. assumption.
Qed.

Lemma fold_record_prop_source (wanted : list string) (lines : list string)
  (info : list (string * string)) (key value : string) :
  dict_get key (fold_left (record_prop wanted) lines info) = Some value ->
  dict_get key info = Some value
  \/ exists line, In line lines /\ read_prop_line line = Entry key value.
Proof.
  revert info. induction lines as [| line rest IH]; intros info H; [left; exact H |].
  cbn [fold_left] in H. destruct (IH _ H) as [Hinfo | (l & Hin & Hl)].
  - destruct (record_prop_source _ _ _ _ _ Hinfo) as [H0 | Hline].
    + left. exact H0.
    + right. exists line. split; [left; reflexivity | exact Hline].
  - right. exists l. split; [right; exact Hin | exact Hl].
Qed.

(** X6. A value in the dictionary of [get_device_info] is either the
    placeholder ["N/A"] or the value of a line of the [getprop] output
    that defines that key: when the output is missing or has no such
    line, the property stays ["N/A"]. *)
Theorem device_info_value_source (prop_output : option string) (key value : string) :
  dict_get key (device_info_of prop_output) = Some value ->
  value = "N/A"
  \/ exists out line,
       prop_output = Some out
       /\ In line (PyStr.splitlines out)
       /\ read_prop_line line = Entry key value.
Proof.
  assert (Hdefault : dict_get key default_info = Some value -> value = "N/A").
  { unfold default_info. cbn [dict_get].
    repeat (destruct (_ =? key)%string; [intros [= <-]; reflexivity |]).
    discriminate. }
  unfold device_info_of. destruct prop_output as [out |]; [| left; auto].
  destruct (out =? "")%string; [left; auto |].
  intros H. destruct (fold_record_prop_source _ _ _ _ _ H) as [H0 | (line & Hin & Hl)].
  - left. auto.
  - right. exists out, line. auto.
Qed.

Lemma device_info_value_source_witness :
  "N/A" = "N/A"
  \/ exists out line,
       @None string = Some out
       /\ In line (PyStr.splitlines out)
       /\ read_prop_line line = Entry "ro.product.model" "N/A".
Proof. apply (device_info_value_source None "ro.product.model" "N/A"). reflexivity. Defined.

(** ** Connection status *)

Lemma no_trouble_no_status (lines : list string) :
  existsb mentions_trouble lines = false ->
  first_status lines = Some Authorized \/ first_status lines = None.
Proof.
  induction lines as [| line rest IH]; intros H; [right; reflexivity |].
  cbn [existsb] in H. apply orb_false_iff in H. destruct H as [Hline Hrest].
  unfold mentions_trouble in Hline. apply orb_false_iff in Hline.
  destruct Hline as [Hoff Hun].
  cbn [first_status].
  destruct (PyStr.contains (String TAB "device") line); [left; reflexivity |].
  destruct (PyStr.contains (String TAB "unauthorized") line) eqn:Hu.
  { apply contains_tail in Hu. congruence. }
  destruct (PyStr.contains (String TAB "offline") line) eqn:Ho.
  { apply contains_tail in Ho. congruence. }
  exact (IH Hrest).
Qed.

(** X7. When [check_adb_status] finds the device ready on an output of
    [adb devices], the device listing, run on the same output, reports
    the debugging mode as authorized or reports nothing: never
    unauthorized, offline or not connected. *)
Theorem ready_is_never_reported_troubled (output : string) :
  devices_ready output = true ->
  debugging_mode_of output = Authorized \/ debugging_mode_of output = NothingReported.
Proof.
  unfold devices_ready, debugging_mode_of.
  destruct (PyStr.contains "List of devices attached" output); [| discriminate].
  set (lines := PyStr.split_on "010"%char (PyStr.strip output)).
  intros H. apply andb_true_iff in H. destruct H as [Hlen Htrouble].
  apply negb_true_iff in Htrouble.
  destruct (no_trouble_no_status _ Htrouble) as [-> | ->]; [left; reflexivity |].
  apply Nat.ltb_lt in Hlen.
  destruct (Nat.leb_spec (List.length lines) 1); [lia | right; reflexivity].
Qed.

Lemma ready_is_never_reported_troubled_witness :
  debugging_mode_of ("List of devices attached" ++ LF ++ "0A1B2C3D" ++ String TAB "device" ++ LF)
  = Authorized
  \/ debugging_mode_of ("List of devices attached" ++ LF ++ "0A1B2C3D" ++ String TAB "device" ++ LF)
     = NothingReported.
Proof. apply ready_is_never_reported_troubled. vm_compute. reflexivity. Defined.

Lemma lstrip_chars_blank (l : list ascii) :
  Forall (fun c => PyStr.isspace c = true) l -> PyStr.lstrip_chars l = [].
Proof.
  induction 1 as [| c l Hc _ IH]; [reflexivity |].
  cbn [PyStr.lstrip_chars]. rewrite Hc. exact IH.
Qed.

Lemma lstrip_chars_blank_app (ws l : list ascii) :
  Forall (fun c => PyStr.isspace c = true) ws ->
  PyStr.lstrip_chars (ws ++ l) = PyStr.lstrip_chars l.
Proof.
  induction 1 as [| c ws Hc _ IH]; [reflexivity |].
  cbn [app PyStr.lstrip_chars]. rewrite Hc. exact IH.
Qed.

Lemma rstrip_chars_blank_app (l ws : list ascii) :
  Forall (fun c => PyStr.isspace c = true) ws ->
  PyStr.rstrip_chars (l ++ ws) = PyStr.rstrip_chars l.
Proof.
  intros Hws. unfold PyStr.rstrip_chars. rewrite rev_app_distr.
  rewrite lstrip_chars_blank_app; [reflexivity |].
  apply Forall_rev. exact Hws.
Qed.

Lemma lstrip_chars_In (c : ascii) (l : list ascii) :
  In c (PyStr.lstrip_chars l) -> In c l.
Proof.
  induction l as [| a l IH]; cbn [PyStr.lstrip_chars]; [auto |].
  destruct (PyStr.isspace a); [| auto]. intros H. right. exact (IH H).
Qed.

Lemma rstrip_chars_In (c : ascii) (l : list ascii) :
  In c (PyStr.rstrip_chars l) -> In c l.
Proof.
  unfold PyStr.rstrip_chars. intros H.
  apply in_rev in H. apply lstrip_chars_In in H. apply in_rev. exact H.
Qed.

(** Trailing blanks do not survive [strip]. *)
Lemma strip_blank_tail (l ws : list ascii) :
  Forall (fun c => PyStr.isspace c = true) ws ->
  PyStr.rstrip_chars (PyStr.lstrip_chars (l ++ ws))
  = PyStr.rstrip_chars (PyStr.lstrip_chars l).
Proof.
  intros Hws. induction l as [| a l IH].
  - cbn [app]. rewrite (lstrip_chars_blank ws Hws). reflexivity.
  - cbn [app PyStr.lstrip_chars]. destruct (PyStr.isspace a); [exact IH |].
    apply (rstrip_chars_blank_app (a :: l) ws Hws).
Qed.

Lemma fields_no_sep (sep : ascii) (cur l : list ascii) :
  ~ In sep l -> PyStr.fields sep cur l = [PyStr.str (rev cur ++ l)].
Proof.
  revert cur. induction l as [| c l IH]; intros cur Hno.
  - cbn [PyStr.fields]. rewrite app_nil_r. reflexivity.
  - cbn [PyStr.fields]. destruct (Ascii.eqb_spec c sep) as [Heq | _].
    + exfalso. apply Hno. left. exact Heq.
    + rewrite IH.
      * cbn [rev]. rewrite <- app_assoc. reflexivity.
      * intros Hin. apply Hno. right. exact Hin.
Qed.

Lemma devices_ready_single_line (first_line blanks : string) :
  ~ In "010"%char (PyStr.chars first_line) ->
  Forall (fun c => PyStr.isspace c = true) (PyStr.chars blanks) ->
  devices_ready (first_line ++ blanks) = false.
Proof.
  intros Hline Hblank. unfold devices_ready.
  destruct (PyStr.contains "List of devices attached" (first_line ++ blanks));
    [| reflexivity].
  unfold PyStr.split_on, PyStr.strip. rewrite chars_str, chars_app.
  rewrite (strip_blank_tail _ _ Hblank).
  rewrite fields_no_sep; [reflexivity |].
  intros Hin. apply rstrip_chars_In, lstrip_chars_In in Hin. exact (Hline Hin).
Qed.

(** X8. When the output of [adb devices] is a single line followed by
    blank characters only (the header with no device under it),
    [check_adb_status] answers [False]. *)
Theorem no_device_line_is_not_ready (first_line blanks stderr : string) :
  ~ In "010"%char (PyStr.chars first_line) ->
  Forall (fun c => PyStr.isspace c = true) (PyStr.chars blanks) ->
  check_adb_status_of (Completed (first_line ++ blanks) stderr) = inr false.
Proof.
  intros Hline Hblank. cbn [check_adb_status_of].
  rewrite (devices_ready_single_line _ _ Hline Hblank). reflexivity.
Qed.

Lemma no_device_line_is_not_ready_witness :
  check_adb_status_of (Completed ("List of devices attached" ++ (LF ++ LF)) "") = inr false.
Proof.
  apply no_device_line_is_not_ready.
  - vm_compute. intuition discriminate.
  - repeat constructor.
Defined.

(** ** The consolidated storage dictionary *)

Lemma dict_set_In {V : Type} (k : string) (v : V) (d : list (string * V)) (e : string * V) :
  In e (dict_set k v d) -> e = (k, v) \/ In e d.
Proof.
  induction d as [| [k' v'] r IH]; cbn [dict_set].
  - intros [<- | []]. left. reflexivity.
  - destruct (k' =? k)%string.
    + intros [<- | Hin]; [left; reflexivity | right; right; exact Hin].
    + intros [<- | Hin]; [right; left; reflexivity |].
      destruct (IH Hin) as [-> | Hr]; [left; reflexivity | right; right; exact Hr].
Qed.

Lemma dict_set_length {V : Type} (k : string) (v : V) (d : list (string * V)) :
  (1 <= List.length (dict_set k v d) <= S (List.length d))%nat.
Proof.
  induction d as [| [k' v'] r IH]; cbn [dict_set List.length]; [lia |].
  destruct (k' =? k)%string; cbn [List.length]; lia.
Qed.

(** What one turn of the loop does to the dictionary: one assignment,
    under the key ["Internal Storage"] or under the name of the store. *)
Lemma consolidate_step_assigns (info : list (string * Details)) (flag : bool) (store : Details) :
  exists k,
    (k = "Internal Storage" \/ k = name store)
    /\ fst (consolidate_step (info, flag) store) = dict_set k store info.
Proof.
  unfold consolidate_step.
  destruct (path store =? "/storage/emulated/0")%string;
    [exists "Internal Storage"; auto |].
  destruct ((path store =? "/storage/emulated")%string && negb flag);
    [exists "Internal Storage"; auto |].
  destruct (PyStr.contains "SD Card" (name store)
            || PyStr.contains "External Storage" (name store));
    exists (name store); auto.
Qed.

Lemma consolidate_fold_entries (stores : list Details) (acc : list (string * Details) * bool)
  (seen : list Details) :
  (forall k s, In (k, s) (fst acc) ->
               In s seen /\ (k = "Internal Storage" \/ k = name s)) ->
  (List.length (fst acc) <= List.length seen)%nat ->
  let final := fst (fold_left consolidate_step stores acc) in
  (forall k s, In (k, s) final ->
               In s (seen ++ stores) /\ (k = "Internal Storage" \/ k = name s))
  /\ (List.length final <= List.length (seen ++ stores))%nat
  /\ (stores <> [] -> final <> []).
Proof.
  revert acc seen. induction stores as [| store rest IH]; intros [info flag] seen Hinv Hlen.
  - cbn [fold_left fst]. rewrite app_nil_r.
    split; [exact Hinv |]. split; [exact Hlen |].
    intros H. exfalso. apply H. reflexivity.
  - cbn [fold_left].
    destruct (consolidate_step_assigns info flag store) as (k0 & Hk0 & Hstep).
    destruct (consolidate_step (info, flag) store) as [info' flag'] eqn:Hacc.
    cbn [fst] in Hstep. subst info'.
    assert (Hinv' : forall k s, In (k, s) (dict_set k0 store info) ->
                     In s (seen ++ [store])%list
                     /\ (k = "Internal Storage" \/ k = name s)).
    { intros k s Hin.
      destruct (dict_set_In _ _ _ _ Hin) as [[= -> ->] | Hold].
      - split; [apply in_or_app; right; left; reflexivity | exact Hk0].
      - destruct (Hinv k s Hold) as [Hs Hk].
        split; [apply in_or_app; left; exact Hs | exact Hk]. }
    assert (Hlen' : (List.length (dict_set k0 store info)
                     <= List.length (seen ++ [store])%list)%nat).
    { cbn [fst] in Hlen. rewrite length_app. cbn [List.length].
      pose proof (dict_set_length k0 store info). lia. }
    specialize (IH (dict_set k0 store info, flag') (seen ++ [store])%list Hinv' Hlen').
    replace ((seen ++ [store]) ++ rest)%list with (seen ++ store :: rest)%list in IH
      by (rewrite <- app_assoc; reflexivity).
    destruct IH as (Hentries & Hlength & Hne).
    split; [exact Hentries |]. split; [exact Hlength |].
    intros _. destruct rest as [| r rest'].
    + cbn [fold_left fst]. pose proof (dict_set_length k0 store info) as Hl.
      intros Hnil. rewrite Hnil in Hl. cbn in Hl. lia.
    + apply Hne. discriminate.
Qed.

Lemma consolidate_facts (storage_details : list Details) :
  (forall k s, In (k, s) (consolidate storage_details) ->
               In s storage_details /\ (k = "Internal Storage" \/ k = name s))
  /\ (List.length (consolidate storage_details) <= List.length storage_details)%nat
  /\ (storage_details <> [] -> consolidate storage_details <> []).
Proof.
  apply (consolidate_fold_entries storage_details ([], false) []).
  - intros k s [].
  - reflexivity.
Qed.

(** X9. Every entry of the consolidated dictionary holds one of the
    dictionaries returned by [get_storage_details], filed under its own
    name or under ["Internal Storage"]; the dictionary has no more entries
    than there are stores, and it is empty only when there is no store. *)
Theorem consolidate_entries (storage_details : list Details) :
  (forall k s, In (k, s) (consolidate storage_details) ->
               In s storage_details /\ (k = "Internal Storage" \/ k = name s))
  /\ (List.length (consolidate storage_details) <= List.length storage_details)%nat
  /\ (consolidate storage_details = [] <-> storage_details = []).
Proof.
  destruct (consolidate_facts storage_details) as (Hentries & Hlength & Hne).
  split; [exact Hentries |]. split; [exact Hlength |]. split.
  - intros Hnil. destruct storage_details as [| s r]; [reflexivity |].
    exfalso. apply Hne; [discriminate | exact Hnil].
  - intros ->. reflexivity.
Qed.

Lemma consolidate_fold_keeps_internal (post : list Details) (info : list (string * Details))
  (s : Details) :
  dict_get "Internal Storage" info = Some s ->
  (forall t, In t post ->
             path t <> "/storage/emulated/0" /\ name t <> "Internal Storage") ->
  dict_get "Internal Storage" (fst (fold_left consolidate_step post (info, true))) = Some s.
Proof.
  revert info. induction post as [| t post IH]; intros info Hget Hpost; [exact Hget |].
  cbn [fold_left]. destruct (Hpost t (or_introl eq_refl)) as [Hpath Hname].
  unfold consolidate_step at 2.
  apply String.eqb_neq in Hpath. rewrite Hpath.
  cbn [negb]. rewrite andb_false_r.
  assert (Hkeep : dict_get "Internal Storage" (dict_set (name t) t info) = Some s).
  { rewrite dict_get_set_other; [exact Hget | exact Hname]. }
  destruct (PyStr.contains "SD Card" (name t) || PyStr.contains "External Storage" (name t));
    apply IH; try exact Hkeep; intros t' Hin; apply Hpost; right; exact Hin.
Qed.

(** X10. Once a store with path [/storage/emulated/0] has been filed as
    ["Internal Storage"], no later store displaces it, unless that store
    has the same path or is itself named ["Internal Storage"]; a later
    [/storage/emulated] store in particular does not. *)
Theorem internal_storage_0_kept (pre post : list Details) (s : Details) :
  path s = "/storage/emulated/0" ->
  (forall t, In t post ->
             path t <> "/storage/emulated/0" /\ name t <> "Internal Storage") ->
  dict_get "Internal Storage" (consolidate (pre ++ s :: post)) = Some s.
Proof.
  intros Hpath Hpost. unfold consolidate. rewrite fold_left_app. cbn [fold_left].
  destruct (fold_left consolidate_step pre ([], false)) as [info flag].
  unfold consolidate_step at 2. rewrite Hpath. cbn [String.eqb Ascii.eqb Bool.eqb].
  change ("/storage/emulated/0" =? "/storage/emulated/0")%string with true. cbn iota.
  apply consolidate_fold_keeps_internal; [apply dict_get_set | exact Hpost].
Qed.

Lemma internal_storage_0_kept_witness :
  dict_get "Internal Storage"
    (consolidate
       ([new_details "SD Card" "/storage/1A2B-3C4D"]
          ++ new_details "Internal Storage" "/storage/emulated/0"
          :: [new_details "Emulated" "/storage/emulated"]))
  = Some (new_details "Internal Storage" "/storage/emulated/0").
Proof.
  apply internal_storage_0_kept.
  - reflexivity.
  - intros t [<- | []]. split; discriminate.
Defined.

(** ** The storage section *)

Section ListingProperties.

Variable World : Type.
Variable subprocess_run : string -> World -> run_outcome * World.

Lemma top_folders_at_most (path : string) (count : Z) (w : World) :
  0 <= count ->
  (List.length (fst (get_top_large_folders World subprocess_run path count w))
   <= Z.to_nat count)%nat.
Proof.
  intros Hcount. rewrite get_top_large_folders_ranked.
  rewrite top_of_nonneg by exact Hcount.
  rewrite length_map, length_firstn. lia.
Qed.

Lemma storage_sections_entries (entries : list (string * Details)) (w : World) :
  map (fun section => (fst (fst section), snd (fst section)))
    (fst (storage_sections World subprocess_run entries w)) = entries
  /\ Forall (fun section => (List.length (snd section) <= 5)%nat)
       (fst (storage_sections World subprocess_run entries w)).
Proof.
  revert w. induction entries as [| [storage_name store] rest IH]; intros w.
  - split; [reflexivity | constructor].
  - cbn [storage_sections].
    pose proof (top_folders_at_most (path store) 5 w ltac:(lia)) as Htop.
    destruct (get_top_large_folders World subprocess_run (path store) 5 w)
      as [top_folders w1].
    specialize (IH w1).
    destruct (storage_sections World subprocess_run rest w1) as [sections w2].
    cbn [fst snd map] in *. destruct IH as [Hmap Hall].
    split; [rewrite Hmap; reflexivity |].
    constructor; [exact Htop | exact Hall].
Qed.

(** X11. When [get_storage_details] returns, the storage section of the
    device listing is produced: it has one part per entry of the
    consolidated dictionary, in the order of that dictionary, so no more
    parts than candidates, and each part lists five items at most. When
    [get_storage_details] raises, which only the [OverflowError] of a
    division does, the listing raises the same exception and has no
    storage section. It returns whenever every integer token of the
    [df] output is below 2^1000 in absolute value. *)
Theorem storage_information_sections (storages : list (string * string)) (w : World) :
  (forall storage_details,
     fst (get_storage_details World subprocess_run storages w) = inr storage_details ->
     exists sections,
       fst (storage_information World subprocess_run storages w) = inr sections
       /\ map (fun section => (fst (fst section), snd (fst section))) sections
          = consolidate storage_details
       /\ (List.length sections <= List.length storages)%nat
       /\ Forall (fun section => (List.length (snd section) <= 5)%nat) sections)
  /\ (forall e,
        fst (get_storage_details World subprocess_run storages w) = inl e ->
        e = OverflowError
        /\ fst (storage_information World subprocess_run storages w) = inl e)
  /\ ((forall line token z,
         In line (fst (fetch_df_lines World subprocess_run w)) ->
         In token (PyStr.split line) ->
         PyStr.py_int token = Some z ->
         Z.abs z < 2 ^ 1000) ->
      exists storage_details,
        fst (get_storage_details World subprocess_run storages w) = inr storage_details).
Proof.
  pose proof (get_storage_details_survey World subprocess_run storages w) as Hsurvey.
  split; [| split].
  - intros storage_details Hreturns.
    assert (Hlen : List.length storage_details = List.length storages).
    { rewrite Hsurvey in Hreturns. apply survey_candidates_returns in Hreturns.
      rewrite Hreturns. apply length_map. }
    unfold storage_information.
    destruct (get_storage_details World subprocess_run storages w) as [r w1].
    cbn [fst] in Hreturns. subst r.
    destruct (storage_sections_entries (consolidate storage_details) w1) as [Hmap Hall].
    destruct (storage_sections World subprocess_run (consolidate storage_details) w1)
      as [sections w2].
    cbn [fst] in *. exists sections.
    split; [reflexivity |]. split; [exact Hmap |]. split; [| exact Hall].
    rewrite <- (length_map (fun section => (fst (fst section), snd (fst section)))).
    rewrite Hmap, <- Hlen.
    destruct (consolidate_facts storage_details) as (_ & Hle & _). exact Hle.
  - intros e Hraises. split.
    + rewrite Hsurvey in Hraises.
      destruct (survey_candidates_raises _ _ _ Hraises) as [He _]. exact He.
    + unfold storage_information.
      destruct (get_storage_details World subprocess_run storages w) as [r w1].
      cbn [fst] in Hraises. subst r. reflexivity.
  - intros Hrange. rewrite Hsurvey. eexists.
    apply survey_candidates_in_range.
    intros candidate row _ Hrow.
    destruct (matching_row_from_line _ _ _ Hrow) as (line & Hin & Hline).
    apply line_row_reads in Hline. destruct Hline as [Hreads _].
    destruct Hreads as (fs & t & u & a & rest & Hsplit & _ & _ & Ht & Hu & Ha).
    assert (Htok : forall token, In token [t; u; a] -> In token (PyStr.split line)).
    { intros token Htoken. rewrite Hsplit. right. cbn [In] in *.
      destruct Htoken as [<- | [<- | [<- | []]]]; auto. }
    split; [| split].
    + apply (Hrange line t); [exact Hin | apply Htok; cbn; auto | exact Ht].
    + apply (Hrange line u); [exact Hin | apply Htok; cbn; auto | exact Hu].
    + apply (Hrange line a); [exact Hin | apply Htok; cbn; auto | exact Ha].
Qed.

Lemma slice_to_In {A : Type} (count : Z) (l : list A) (x : A) :
  In x (slice_to count l) -> In x l.
Proof.
  assert (Hfirst : forall n, In x (firstn n l) -> In x l).
  { intros n H. rewrite <- (firstn_skipn n l). apply in_or_app. left. exact H. }
  unfold slice_to. destruct (count <? 0); apply Hfirst.
Qed.


(** X12. Every string returned by [get_top_large_folders], for any count,
    is the size string of a [du] answer, a blank, and the child path that
    [du] was called for: the listing of the path succeeded, the child
    path was built from a line of it, the [du] call for that child path
    succeeded with an answer of two tab-separated fields, the string
    starts with the first field, stripped, and [float] accepts the
    numeric part of that field. Nothing is returned when the listing
    fails, and nothing that is not an entry of the listing. *)
Theorem top_folders_come_from_listing (path : string) (count : Z) (w : World) (x : string) :
  In x (fst (get_top_large_folders World subprocess_run path count w)) ->
  exists stdout_ls stderr_ls w1 item_path w2 stdout_du stderr_du w3 p0 p1 size_val,
    run_adb_command World subprocess_run (ls_command path) w
    = ((true, stdout_ls, stderr_ls), w1)
    /\ In item_path (potential_items path stdout_ls)
    /\ run_adb_command World subprocess_run (du_command item_path) w2
       = ((true, stdout_du, stderr_du), w3)
    /\ PyStr.split_on TAB (PyStr.strip stdout_du) = [p0; p1]
    /\ size_val_of (PyStr.strip p0) = Some size_val
    /\ x = PyStr.strip p0 ++ " " ++ item_path.
Proof.
  rewrite get_top_large_folders_ranked.
  intros Hin. apply in_map_iff in Hin. destruct Hin as (e & <- & He).
  unfold top_of in He. apply slice_to_In in He.
  apply (Permutation_in _ (sort_desc_perm _)) in He.
  destruct (parsed_entries_source _ _ _ _ _ He)
    as (stdout_ls & stderr_ls & w1 & item_path & w2 & stdout_du & stderr_du & w3
        & Hls & Hitem & Hdu & Hentry).
  destruct (du_entry_parsed _ _ _ _ Hentry) as (p0 & p1 & size_val & _ & Hsplit & Hval & ->).
  exists stdout_ls, stderr_ls, w1, item_path, w2, stdout_du, stderr_du, w3, p0, p1, size_val.
  repeat split; assumption || reflexivity.
Qed.


End ListingProperties.


Lemma storage_information_sections_witness :
  exists sections,
    fst (storage_information Phone.World (Phone.run (Phone.with_df Phone.df_two_names))
           Phone.candidates []) = inr sections
    /\ (List.length sections <= 2)%nat.
Proof.
  destruct (proj1 (storage_information_sections Phone.World
                     (Phone.run (Phone.with_df Phone.df_two_names)) Phone.candidates [])
              (map (detail_of Phone.df_two_names) Phone.candidates))
    as (sections & Hsections & _ & Hlength & _).
  - vm_compute. reflexivity.
  - exists sections. split; [exact Hsections | exact Hlength].
Defined.

Lemma top_folders_come_from_listing_witness :
  exists stdout_ls stderr_ls w1 item_path w2 stdout_du stderr_du w3 p0 p1 size_val,
    run_adb_command Phone.World (Phone.run Phone.odd_sizes) (ls_command "/sdcard") []
    = ((true, stdout_ls, stderr_ls), w1)
    /\ In item_path (potential_items "/sdcard" stdout_ls)
    /\ run_adb_command Phone.World (Phone.run Phone.odd_sizes) (du_command item_path) w2
       = ((true, stdout_du, stderr_du), w3)
    /\ PyStr.split_on TAB (PyStr.strip stdout_du) = [p0; p1]
    /\ size_val_of (PyStr.strip p0) = Some size_val
    /\ "nanK /sdcard/b" = PyStr.strip p0 ++ " " ++ item_path.
Proof.
  apply (top_folders_come_from_listing Phone.World (Phone.run Phone.odd_sizes) "/sdcard" 5 []).
  vm_compute. right. left. reflexivity.
Defined.


(** ** Device calls of the ranking *)

Lemma measure_items_log (table : list (string * run_outcome)) (items : list string)
  (log : Phone.World) :
  snd (measure_items Phone.World (Phone.run table) items log)
  = (log ++ map du_command items)%list.
Proof.
  revert log. induction items as [| item rest IH]; intros log.
  - cbn [measure_items snd map]. rewrite app_nil_r. reflexivity.
  - cbn [measure_items]. unfold run_adb_command, Phone.run at 1.
    destruct (run_adb_command_result (Phone.answer table (du_command item)))
      as [[success_du stdout_du] stderr_du].
    specialize (IH (log ++ [du_command item])%list).
    destruct (measure_items Phone.World (Phone.run table) rest
                (log ++ [du_command item])%list) as [raw w2].
    cbn [snd map] in *. rewrite IH, <- app_assoc. reflexivity.
Qed.

Lemma top_folders_log
  (table : list (string * run_outcome)) (path : string) (count : Z) (log : Phone.World) :
  snd (get_top_large_folders Phone.World (Phone.run table) path count log)
  = (log ++ ls_command path
       :: match Phone.answer table (ls_command path) with
          | Completed stdout_ls _ => map du_command (potential_items path stdout_ls)
          | CalledProcessError _ _ => []
          | FileNotFoundError => []
          | OtherException _ => []
          end)%list.
Proof.
  unfold get_top_large_folders, run_adb_command, Phone.run at 1.
  destruct (Phone.answer table (ls_command path)) as [out err | out err | | msg];
    cbn [run_adb_command_result negb snd]; try reflexivity.
  destruct (potential_items path out) as [| item items] eqn:Hitems.
  - reflexivity.
  - pose proof (measure_items_log table (item :: items)
                  (log ++ [ls_command path])%list) as Hlog.
    destruct (measure_items Phone.World (Phone.run table) (item :: items)
                (log ++ [ls_command path])%list) as [raw w2].
    cbn [snd] in *. rewrite Hlog, <- app_assoc. reflexivity.
Qed.

(** X14. On a device that records the commands it is given,
    [get_top_large_folders] issues one [ls] for the path and then, when
    the listing succeeds, one [du] per child path, in the order of the
    listing; it issues no [du] when the listing fails, and whether a [du]
    fails has no effect on the calls that follow. *)
Theorem top_folders_commands
  (table : list (string * run_outcome)) (path : string) (count : Z) (log : Phone.World) :
  snd (get_top_large_folders Phone.World (Phone.run table) path count log)
  = (log ++ ls_command path
       :: match Phone.answer table (ls_command path) with
          | Completed stdout_ls _ => map du_command (potential_items path stdout_ls)
          | CalledProcessError _ _ => []
          | FileNotFoundError => []
          | OtherException _ => []
          end)%list.
Proof. apply top_folders_log. Qed.

(** ** Child paths *)

Lemma replace_chars (a b : ascii) (s : string) :
  PyStr.chars (PyStr.replace a b s)
  = map (fun c => if Ascii.eqb c a then b else c) (PyStr.chars s).
Proof. unfold PyStr.replace. apply chars_str. Qed.

(** X15. No child path handed to [du] contains a backslash, whatever the
    path and the listing contain. *)
Theorem potential_items_forward_slashes (path stdout_ls item : string) :
  In item (potential_items path stdout_ls) ->
  ~ In "\"%char (PyStr.chars item).
Proof.
  unfold potential_items. generalize (PyStr.splitlines stdout_ls) as lines.
  induction lines as [| line rest IH]; cbn [items_of_lines]; [intros [] |].
  destruct (negb (PyStr.strip line =? "")%string
            && negb ((PyStr.strip line =? ".")%string
                     || (PyStr.strip line =? "..")%string)); [| exact IH].
  intros [<- | Hin]; [| exact (IH Hin)].
  rewrite replace_chars. intros Hback.
  apply in_map_iff in Hback. destruct Hback as (c & Hc & _).
  destruct (Ascii.eqb c "\"%char) eqn:Heq; [discriminate Hc |].
  subst c. rewrite Ascii.eqb_refl in Heq. discriminate Heq.
Qed.

Lemma potential_items_forward_slashes_witness :
  ~ In "\"%char (PyStr.chars "C:/backup/DCIM/").
Proof.
  apply (potential_items_forward_slashes "C:\backup" ("DCIM/" ++ LF)).
  vm_compute. left. reflexivity.
Defined.


(** ** Rows that cannot be chosen *)

(** X16. A volume whose path is not one of the three internal-storage
    spellings is only ever given a row whose mount point is that very
    path: the alias rule never lends it the row of another volume. *)
Theorem non_internal_path_exact_row
  (path : string) (df_lines : list string) (details details' : Details) :
  is_internal path = false ->
  scan_df_lines path df_lines details = (details', inr true) ->
  exists line row,
    In line df_lines
    /\ last (PyStr.split line) "" = path
    /\ df_row_of (PyStr.split line) = Some row
    /\ details' = render row details.
Proof.
  intros Hpath Hscan.
  destruct (scan_df_lines_returns _ _ _ _ _ Hscan)
    as [(_ & _ & Hfalse) | (row & Hrow & Hrender & _)]; [discriminate Hfalse |].
  destruct (matching_row_from_line _ _ _ Hrow) as (line & Hin & Hline).
  exists line, row. split; [exact Hin |].
  unfold line_row in Hline.
  destruct (6 <=? List.length (PyStr.split line))%nat; cbn [andb] in Hline;
    [| discriminate].
  destruct (mount_matches path (last (PyStr.split line) "")) eqn:Hm; [| discriminate].
  unfold mount_matches in Hm. rewrite Hpath in Hm. cbn [andb] in Hm.
  rewrite orb_false_r in Hm. apply String.eqb_eq in Hm.
  split; [exact Hm | split; [exact Hline | exact Hrender]].
Qed.

Lemma non_internal_path_exact_row_witness :
  exists line row,
    In line ["tmpfs 1048576 524288 524288 50% /storage/emulated";
             "/dev/block/vold 2097152 524288 1572864 25% /storage/1A2B-3C4D"]
    /\ last (PyStr.split line) "" = "/storage/1A2B-3C4D"
    /\ df_row_of (PyStr.split line) = Some row
    /\ render (mkDfRow "/storage/1A2B-3C4D" 2097152 524288 1572864)
         (new_details "SD Card" "/storage/1A2B-3C4D")
       = render row (new_details "SD Card" "/storage/1A2B-3C4D").
Proof.
  apply (non_internal_path_exact_row "/storage/1A2B-3C4D").
  - reflexivity.
  - vm_compute. reflexivity.
Defined.

Lemma matching_row_skip (path : string) (pre post : list string) (line : string) :
  line_row path line = None ->
  matching_row path (pre ++ line :: post) = matching_row path (pre ++ post).
Proof.
  intros Hline. induction pre as [| l pre IH]; cbn [app matching_row].
  - rewrite Hline. reflexivity.
  - rewrite IH. reflexivity.
Qed.

(** X17. A line of the [df] output with fewer than six tokens, or whose
    second, third or fourth token is not an integer, changes nothing: the
    result for every candidate is what it would be without that line. *)
Theorem malformed_line_ignored
  (path : string) (pre post : list string) (line : string) (details : Details) :
  (List.length (PyStr.split line) < 6)%nat \/ df_row_of (PyStr.split line) = None ->
  scan_df_lines path (pre ++ line :: post) details
  = scan_df_lines path (pre ++ post) details.
Proof.
  intros Hbad. rewrite !scan_df_lines_matching_row.
  rewrite matching_row_skip; [reflexivity |].
  unfold line_row. destruct Hbad as [Hshort | Hrow].
  - apply Nat.leb_gt in Hshort. rewrite Hshort. reflexivity.
  - rewrite Hrow. destruct (_ && _); reflexivity.
Qed.

Lemma malformed_line_ignored_witness :
  scan_df_lines "/sdcard"
    (["Filesystem 1K-blocks Used Available Use% Mounted on"]
       ++ "/dev/fuse - - - - /sdcard"
       :: ["/dev/fuse 2097152 524288 1572864 25% /sdcard"])
    (new_details "Internal Storage" "/sdcard")
  = scan_df_lines "/sdcard"
      (["Filesystem 1K-blocks Used Available Use% Mounted on"]
         ++ ["/dev/fuse 2097152 524288 1572864 25% /sdcard"])
      (new_details "Internal Storage" "/sdcard").
Proof.
  apply malformed_line_ignored. right. vm_compute. reflexivity.
Defined.


(** ** Ties in the ranking *)

Lemma eqb_leb_trans (x y v : Float64.t) :
  Float64.eqb x v = true -> Float64.eqb y v = true -> Float64.leb y x = true.
Proof.
  unfold Float64.eqb. intros Hx Hy.
  apply andb_true_iff in Hx, Hy. destruct Hx as [_ Hvx], Hy as [Hyv _].
  exact (leb_trans _ _ _ Hyv Hvx).
Qed.

Lemma insert_desc_ties (v : Float64.t) (x : Float64.t * string)
  (l : list (Float64.t * string)) :
  filter (fun e => Float64.eqb (fst e) v) (insert_desc x l)
  = filter (fun e => Float64.eqb (fst e) v) (x :: l).
Proof.
  induction l as [| y r IH]; [reflexivity |].
  cbn [insert_desc]. destruct (Float64.ltb (fst x) (fst y)) eqn:Hlt; [| reflexivity].
  cbn [filter] in *. rewrite IH.
  destruct (Float64.eqb (fst x) v) eqn:Hx; destruct (Float64.eqb (fst y) v) eqn:Hy;
    try reflexivity.
  exfalso. pose proof (eqb_leb_trans _ _ _ Hx Hy) as Hyx.
  apply leb_ltb_false in Hyx. congruence.
Qed.

(** X18. When no size collected is a nan, the sort keeps entries of
    equal size in the order in which they were collected, that is in the
    order of the listing: among the entries of any one size, ranking
    changes nothing. *)
Theorem sort_desc_keeps_ties (v : Float64.t) (folder_sizes_raw : list (Float64.t * string)) :
  (forall e, In e folder_sizes_raw -> Float64.is_nan (fst e) = false) ->
  filter (fun e => Float64.eqb (fst e) v) (sort_desc folder_sizes_raw)
  = filter (fun e => Float64.eqb (fst e) v) folder_sizes_raw.
Proof.
  intros _. induction folder_sizes_raw as [| x r IH]; [reflexivity |].
  cbn [sort_desc]. rewrite insert_desc_ties. cbn [filter]. rewrite IH. reflexivity.
Qed.

Lemma sort_desc_keeps_ties_witness :
  filter (fun e => Float64.eqb (fst e) (Float64.Fin 1024))
    (sort_desc (sized "1K" ++ sized "2K" ++ sized "1024" ++ sized "1.0K" ++ sized "3M"))
  = (sized "1K" ++ sized "1024" ++ sized "1.0K")%list.
Proof.
  rewrite sort_desc_keeps_ties.
  - vm_compute. reflexivity.
  - intros e He. vm_compute in He.
    repeat (destruct He as [<- | He]; [reflexivity |]). destruct He.
Defined.

(** ** The menu loop *)

Lemma action_of_zero : action_of "0" = None.
Proof. reflexivity. Qed.

(** X19. The menu loop calls, in order, the functions of the answers 1 to
    7 given before the first answer 0, calls nothing for any other
    answer, and ends at that 0: what is typed after it is never read. *)
Theorem menu_loop_until_zero (pre post : list string) :
  ~ In "0" pre ->
  menu_loop (pre ++ "0" :: post) = (actions_of pre, Exited).
Proof.
  intros Hno. induction pre as [| choice pre IH].
  - reflexivity.
  - cbn [app menu_loop actions_of flat_map].
    assert (Hpre : ~ In "0" pre) by (intros Hin; apply Hno; right; exact Hin).
    rewrite (IH Hpre). fold (actions_of pre).
    destruct (action_of choice) as [action |]; [reflexivity |].
    destruct (String.eqb_spec choice "0") as [-> | _]; [| reflexivity].
    exfalso. apply Hno. left. reflexivity.
Qed.

Lemma menu_loop_until_zero_witness :
  menu_loop (["1"; "x"; " 2"; "7"] ++ "0" :: ["3"])
  = ([ListConnectedDevicesAndDetails; KillAndRestartAdbServer], Exited).
Proof.
  apply (menu_loop_until_zero ["1"; "x"; " 2"; "7"] ["3"]).
  cbn [In]. intuition discriminate.
Defined.

(** ** Device calls of the storage section *)

Lemma storage_sections_log (table : list (string * run_outcome))
  (entries : list (string * Details)) (log : Phone.World) :
  snd (storage_sections Phone.World (Phone.run table) entries log)
  = (log ++ flat_map (section_commands table) entries)%list.
Proof.
  revert log. induction entries as [| [storage_name store] rest IH]; intros log.
  - cbn [storage_sections snd flat_map]. rewrite app_nil_r. reflexivity.
  - cbn [storage_sections].
    pose proof (top_folders_log table (path store) 5 log) as Htop.
    destruct (get_top_large_folders Phone.World (Phone.run table) (path store) 5 log)
      as [top_folders w1].
    cbn [snd] in Htop. subst w1.
    rewrite (surjective_pairing (storage_sections _ _ rest _)).
    cbn [snd flat_map]. rewrite IH. unfold section_commands at 2. cbn [snd].
    rewrite <- app_assoc. reflexivity.
Qed.

(** X20. On a device that records the commands it is given, the storage
    section of the listing gives no command when there is no candidate;
    otherwise it asks for [df -k] once. When [get_storage_details] then
    returns, it asks, for each entry of the consolidated dictionary in
    turn, for the listing of its path and for one [du] per child path.
    When [get_storage_details] raises, which only the [OverflowError] of
    a division does, no command follows the [df -k]. *)
Theorem storage_information_commands
  (table : list (string * run_outcome)) (storages : list (string * string))
  (log : Phone.World) :
  snd (storage_information Phone.World (Phone.run table) storages log)
  = match storages with
    | [] => log
    | _ :: _ =>
        match fst (get_storage_details Phone.World (Phone.run table) storages log) with
        | inr storage_details =>
            (log ++ "adb shell df -k"
               :: flat_map (section_commands table) (consolidate storage_details))%list
        | inl _ => (log ++ ["adb shell df -k"])%list
        end
    end
  /\ (forall e,
        fst (get_storage_details Phone.World (Phone.run table) storages log) = inl e ->
        e = OverflowError).
Proof.
  pose proof (get_storage_details_survey Phone.World (Phone.run table) storages log)
    as Hsurvey.
  split.
  - unfold storage_information.
    destruct storages as [| c rest]; [reflexivity |].
    assert (Hlog : snd (get_storage_details Phone.World (Phone.run table) (c :: rest) log)
                   = (log ++ ["adb shell df -k"])%list).
    { unfold get_storage_details, fetch_df_lines, run_adb_command, Phone.run.
      destruct (run_adb_command_result (Phone.answer table "adb shell df -k"))
        as [[[|] out] err]; reflexivity. }
    destruct (get_storage_details Phone.World (Phone.run table) (c :: rest) log)
      as [[e | storage_details] w1].
    + cbn [fst snd] in *. exact Hlog.
    + cbn [fst snd] in *. subst w1.
      rewrite (surjective_pairing (storage_sections _ _ _ _)). cbn [snd].
      rewrite storage_sections_log, <- app_assoc. reflexivity.
  - intros e Hraises. rewrite Hsurvey in Hraises.
    destruct (survey_candidates_raises _ _ _ Hraises) as [He _]. exact He.
Qed.

Lemma storage_information_commands_witness :
  snd (storage_information Phone.World
         (Phone.run (Phone.with_df ["tmpfs 0 " ++ Phone.huge ++ " 0 0% /mnt/empty"]))
         [("Empty", "/mnt/empty")] [])
  = ["adb shell df -k"].
Proof.
  rewrite (proj1 (storage_information_commands
                    (Phone.with_df ["tmpfs 0 " ++ Phone.huge ++ " 0 0% /mnt/empty"])
                    [("Empty", "/mnt/empty")] [])).
  vm_compute. reflexivity.
Defined.

(** X21. When [adb devices] prints a single line followed by blank
    characters only, [main] returns after the status check: it shows no
    menu and calls none of the menu functions, whatever would be typed. *)
Theorem main_without_device (first_line blanks stderr : string) (choices : list string) :
  ~ In "010"%char (PyStr.chars first_line) ->
  Forall (fun c => PyStr.isspace c = true) (PyStr.chars blanks) ->
  main_of (check_adb_status_of (Completed (first_line ++ blanks) stderr)) choices
  = inr ([], NotReady).
Proof.
  intros Hline Hblank. cbn [check_adb_status_of].
  rewrite (devices_ready_single_line _ _ Hline Hblank). reflexivity.
Qed.

Lemma main_without_device_witness :
  main_of (check_adb_status_of (Completed ("List of devices attached" ++ (LF ++ LF)) ""))
    ["1"; "2"; "0"]
  = inr ([], NotReady).
Proof.
  apply main_without_device.
  - vm_compute. intuition discriminate.
  - repeat constructor.
Defined.

